(** * Water-Monitoring: threshold alerts, range constraints and the data gateway

    A shallow embedding of the three Python sources of the dashboard,

      - [constraints.py]: the registry [CONSTRAINTS] and [check_constraints];
      - [db.py]:          [fetch_data], the only place that talks to the store;
      - [app.py]:         [data_sources] and the per-row closure
                          [highlight_alerts] of the station dashboards; in
                          [Dashboard], the pages around them: loading, the
                          station tables, the historical explorer, the
                          advanced search and the cleaning of the chart;

    followed by the properties the specification states about them, and by
    further properties read off the code.

    Conventions of the embedding.

    - A Python exception is a value of [exn]; code that may raise lives in
      the error monad [result], and [try: ... except: ...] is [try_except].
    - A float is the rational it denotes, or one of NaN, +inf, -inf
      ([pyfloat]).  Every threshold of the sources (10.5, 0.00, 15, 50, 30,
      40 and the integer bounds of the registry) is a double, and an order
      comparison of two doubles is exact, so comparing the denoted rationals
      is what Python does.  Rounding happens only where a double is made
      (in the driver, or in [float] applied to text), never in the code
      modelled here.
    - [float] applied to text is a parameter, [str_to_float]: the theorems
      hold for every parser.
    - The store is a parameter of [fetch_data]; what the gateway sends to it
      and what it prints are recorded as a list of [event]s. *)

From Stdlib Require Import String Ascii List Bool Arith ZArith QArith Lia.
From Stdlib Require Import DecimalString Permutation Sorted.
Import ListNotations.

Local Open Scope string_scope.
Local Open Scope list_scope.

(* ===================================================================== *)
(** * Python values                                                       *)
(* ===================================================================== *)

Module Py.

(** Exceptions the modelled code can meet; all are subclasses of
    [Exception]. *)
Inductive exn : Type :=
| KeyError (key : string)
| TypeError (msg : string)
| ValueError (msg : string)
| DatabaseError (msg : string).

(** [str(e)] *)
Definition exn_str (e : exn) : string :=
  match e with
  | KeyError k => "'" ++ k ++ "'"
  | TypeError m | ValueError m | DatabaseError m => m
  end.

Inductive result (A : Type) : Type :=
| Ok (a : A)
| Raise (e : exn).
Arguments Ok {A} a.
Arguments Raise {A} e.

Definition bind {A B : Type} (c : result A) (k : A -> result B) : result B :=
  match c with
  | Ok a => k a
  | Raise e => Raise e
  end.

(** [try: c  except: h] (also [except Exception as e], every [exn] being an
    [Exception]). *)
Definition try_except {A : Type} (c : result A) (h : exn -> result A) : result A :=
  match c with
  | Ok a => Ok a
  | Raise e => h e
  end.

Fixpoint mapM {A B : Type} (f : A -> result B) (l : list A) : result (list B) :=
  match l with
  | [] => Ok []
  | x :: xs =>
      bind (f x) (fun y => bind (mapM f xs) (fun ys => Ok (y :: ys)))
  end.

(** A Python float. *)
Inductive pyfloat : Type :=
| FNaN
| FNegInf
| FFin (q : Q)
| FPosInf.

Definition Qltb (a b : Q) : bool := negb (Qle_bool b a).

(** [a < b] on floats: false as soon as one side is NaN. *)
Definition flt (a b : pyfloat) : bool :=
  match a, b with
  | FNaN, _ | _, FNaN => false
  | FNegInf, FNegInf => false
  | FNegInf, _ => true
  | FFin _, FNegInf => false
  | FFin x, FFin y => Qltb x y
  | FFin _, FPosInf => true
  | FPosInf, _ => false
  end.

(** [a > b] *)
Definition fgt (a b : pyfloat) : bool := flt b a.

(** An integer literal of the source, as a float operand. *)
Definition of_int (k : Z) : pyfloat := FFin (inject_Z k).

(** What a cell of a DataFrame can hold. *)
Inductive value : Type :=
| VNone                (* None: SQL NULL in an object column *)
| VNum (f : pyfloat)   (* int, float, numpy number, Decimal; NaN is the null of a float column *)
| VStr (s : string)    (* text *)
| VOther (repr : string). (* any other non-null object: a date, a timedelta *)

(** [pd.notnull(v)] *)
Definition notnull (v : value) : bool :=
  match v with
  | VNone => false
  | VNum FNaN => false
  | _ => true
  end.

(** A pandas Series: labels with their values, in order.  Labels are the
    column names of one table, hence distinct. *)
Definition Series : Type := list (string * value).

Fixpoint series_get (row : Series) (label : string) : option value :=
  match row with
  | [] => None
  | (l, v) :: rest => if String.eqb l label then Some v else series_get rest label
  end.

(** [label in row] *)
Definition contains (row : Series) (label : string) : bool :=
  match series_get row label with
  | Some _ => true
  | None => false
  end.

(** [row[label]] *)
Definition getitem (row : Series) (label : string) : result value :=
  match series_get row label with
  | Some v => Ok v
  | None => Raise (KeyError label)
  end.

(** A pandas DataFrame, row-major: the column labels and, for each row, its
    cells in the order of the labels. *)
Record DataFrame : Type := mkDataFrame {
  columns : list string;
  rows : list (list value)
}.

(** [pd.DataFrame()] *)
Definition empty_frame : DataFrame := mkDataFrame [] [].

(** [len(df)] *)
Definition df_len (df : DataFrame) : nat := List.length (rows df).

(** [df.empty]: some axis has length 0. *)
Definition df_empty (df : DataFrame) : bool :=
  (List.length (columns df) =? 0)%nat || (List.length (rows df) =? 0)%nat.

(** The row [r] of [df] as a Series. *)
Definition as_series (df : DataFrame) (r : list value) : Series :=
  combine (columns df) r.

(** The cell of row [r] under [column]; a cell the row does not have is
    missing data, NaN. *)
Definition cell (df : DataFrame) (column : string) (r : list value) : value :=
  match series_get (as_series df r) column with
  | Some v => v
  | None => VNum FNaN
  end.

(** [column in df.columns] *)
Definition has_column (df : DataFrame) (column : string) : bool :=
  existsb (String.eqb column) (columns df).

(** [df[column]]: the values of one column, top to bottom. *)
Definition df_getitem (df : DataFrame) (column : string) : result (list value) :=
  if has_column df column
  then Ok (map (cell df column) (rows df))
  else Raise (KeyError column).

(** One cell of [series < k] and [series > k] for an integer [k]: a null
    cell compares false, a number compares by value, anything else is a
    TypeError (pandas raises for the whole comparison). *)
Definition cmp_cell (op : pyfloat -> pyfloat -> bool) (k : Z) (v : value)
  : result bool :=
  match v with
  | VNone => Ok false
  | VNum f => Ok (op f (of_int k))
  | VStr _ => Raise (TypeError "'<' not supported between instances of 'str' and 'int'")
  | VOther _ => Raise (TypeError "Invalid comparison")
  end.

(** [series < k] *)
Definition series_lt (s : list value) (k : Z) : result (list bool) :=
  mapM (cmp_cell flt k) s.

(** [series > k] *)
Definition series_gt (s : list value) (k : Z) : result (list bool) :=
  mapM (cmp_cell fgt k) s.

(** [a | b] on boolean Series of one length. *)
Fixpoint series_or (a b : list bool) : list bool :=
  match a, b with
  | x :: a', y :: b' => (x || y) :: series_or a' b'
  | _, _ => []
  end.

(** Boolean indexing, on the rows. *)
Fixpoint select {A : Type} (l : list A) (mask : list bool) : list A :=
  match l, mask with
  | x :: l', b :: mask' => if b then x :: select l' mask' else select l' mask'
  | _, _ => []
  end.

(** [df[mask]] *)
Definition df_mask (df : DataFrame) (mask : list bool) : DataFrame :=
  mkDataFrame (columns df) (select (rows df) mask).

(** [str(n)] for an [int]. *)
Definition str_int (z : Z) : string := NilZero.string_of_int (Z.to_int z).

(** [str(n)] for a length. *)
Definition str_nat (n : nat) : string := NilZero.string_of_uint (Nat.to_uint n).

(** [str(x)] inside an f-string, for a name that may be [None]. *)
Definition str_opt (o : option string) : string :=
  match o with
  | Some s => s
  | None => "None"
  end.

(** Truth value of a string that may be [None]. *)
Definition truthy (o : option string) : bool :=
  match o with
  | Some "" => false
  | Some _ => true
  | None => false
  end.

(** [dict.get(key, {})] on a dict kept in insertion order. *)
Fixpoint dict_get {V : Type} (d : list (string * V)) (key : string) (default : V) : V :=
  match d with
  | [] => default
  | (k, v) :: rest => if String.eqb k key then v else dict_get rest key default
  end.

(** [sep.join(parts)] *)
Fixpoint join (sep : string) (parts : list string) : string :=
  match parts with
  | [] => ""
  | [p] => p
  | p :: rest => p ++ sep ++ join sep rest
  end.

End Py.

Export Py.

Declare Scope py_scope.
Notation "x <- c ;; k" := (bind c (fun x => k))
  (at level 61, c at next level, right associativity) : py_scope.
Local Open Scope py_scope.

(* ===================================================================== *)
(** * constraints.py                                                      *)
(* ===================================================================== *)

Module Constraints.

(** The rules of one table: column, then [(min_val, max_val)]. *)
Definition rules : Type := list (string * (Z * Z)).

(** [CONSTRAINTS] (lines 4-11) *)
Definition CONSTRAINTS : list (string * rules) :=
  [ ("river_data", [("water_level", (1000, 2000))]);
    ("dam_data",   [("capacity", (5000, 10000))]);
    ("epan_data",  [("some_column", (100, 200))]);
    ("aws_data",   [("temperature", (100, 200))]);
    ("ars_data",   [("pressure", (500, 1000))]);
    ("gate_data",  [("status", (2, 3))]) ]%Z.

(** The f-string of lines 21-25. *)
Definition alert_msg (table_name column : string) (min_val max_val : Z)
  (invalid : nat) : string :=
  "Constraint violation in " ++ table_name ++ " for column '" ++ column ++ "': "
  ++ "Values outside [" ++ str_int min_val ++ ", " ++ str_int max_val ++ "]. "
  ++ "Found " ++ str_nat invalid ++ " invalid entries.".

(** Lines 18-26, the body of the loop for one rule; [alerts] is the list
    built so far. *)
Definition check_rule (df : DataFrame) (table_name : string)
  (column : string) (min_val max_val : Z) (alerts : list string)
  : result (list string) :=
  if has_column df column then
    below <- (s <- df_getitem df column ;; series_lt s min_val) ;;
    above <- (s <- df_getitem df column ;; series_gt s max_val) ;;
    let invalid_rows := df_mask df (series_or below above) in
    if negb (df_empty invalid_rows)
    then Ok (alerts ++ [alert_msg table_name column min_val max_val (df_len invalid_rows)])
    else Ok alerts
  else Ok alerts.

(** The [for] of line 17 over [constraints.items()]. *)
Fixpoint check_rules (df : DataFrame) (table_name : string)
  (constraints : rules) (alerts : list string) : result (list string) :=
  match constraints with
  | [] => Ok alerts
  | (column, (min_val, max_val)) :: rest =>
      alerts' <- check_rule df table_name column min_val max_val alerts ;;
      check_rules df table_name rest alerts'
  end.

(** [check_constraints(df, table_name)] (lines 13-28) *)
Definition check_constraints (df : DataFrame) (table_name : string)
  : result (list string) :=
  let alerts := [] in
  let constraints := dict_get CONSTRAINTS table_name [] in
  check_rules df table_name constraints alerts.

End Constraints.

(* ===================================================================== *)
(** * db.py                                                               *)
(* ===================================================================== *)

Module Db.

(** The bound parameters of a query: [params], in insertion order. *)
Definition params : Type := list (string * string).

(** What leaves [fetch_data]: a statement handed to [pd.read_sql] with its
    bound parameters, or a line printed. *)
Inductive event : Type :=
| ReadSql (query : string) (bound : params)
| Print (line : string).

(** The store behind [pd.read_sql(text(q), engine.connect(), params=p)]:
    rows, or the exception of a failed connection or statement. *)
Definition store : Type := string -> params -> result DataFrame.

(** The default of the keyword [date_column]. *)
Definition default_date_column : option string := Some "data_date".

(** Lines 17-37 of [fetch_data]: the statement and its parameters.  Dates,
    names and the filter value are strings or [None]. *)
Definition build_query (table_name : string)
  (start_date end_date date_column filter_column filter_value : option string)
  : string * params :=
  let base_query := ("SELECT * FROM " ++ table_name)%string in
  let conditions := [] in
  let params := [] in
  (* Date range filtering *)
  let '(conditions, params) :=
    if truthy start_date && truthy end_date
    then (conditions ++ [(str_opt date_column ++ " BETWEEN :start_date AND :end_date")%string],
          params ++ [("start_date", str_opt start_date); ("end_date", str_opt end_date)])
    else (conditions, params) in
  (* Column-value filtering *)
  let '(conditions, params) :=
    if truthy filter_column
       && (match filter_value with Some _ => true | None => false end)
    then (conditions ++ [(str_opt filter_column ++ " = :filter_value")%string],
          params ++ [("filter_value", str_opt filter_value)])
    else (conditions, params) in
  (* Build final query *)
  let base_query :=
    match conditions with
    | [] => base_query
    | _ :: _ => (base_query ++ " WHERE " ++ join " AND " conditions)%string
    end in
  (* Add ordering if date column exists *)
  let base_query :=
    if truthy date_column
    then (base_query ++ " ORDER BY " ++ str_opt date_column)%string
    else base_query in
  (base_query, params).

(** [fetch_data] (lines 8-47): the value returned, and the events in the
    order they happen. *)
Definition fetch_data (db : store) (table_name : string)
  (start_date end_date date_column filter_column filter_value : option string)
  : result DataFrame * list event :=
  let '(base_query, params) :=
    build_query table_name start_date end_date date_column
                filter_column filter_value in
  match db base_query params with
  | Ok df => (Ok df, [ReadSql base_query params])
  | Raise e =>
      (Ok empty_frame,
       [ReadSql base_query params; Print ("Database error: " ++ exn_str e)%string])
  end.

End Db.

(* ===================================================================== *)
(** * app.py                                                              *)
(* ===================================================================== *)

Module App.

(** [data_sources] (lines 78-85): station name, then table. *)
Definition data_sources : list (string * string) :=
  [ ("River", "river_data");
    ("Dam", "dam_data");
    ("EPAN", "epan_data");
    ("AWS", "aws_data");
    ("ARS", "ars_data");
    ("Gate", "gate_data") ].

(** [re.match(r'^g\d+$', col)]: a [g], one digit or more, then the end of
    the string or a last newline ([$] matches before it too).  Column names
    are ASCII, so [\d] is a digit from 0 to 9. *)
Definition is_digit (c : ascii) : bool :=
  (48 <=? nat_of_ascii c)%nat && (nat_of_ascii c <=? 57)%nat.

Definition is_newline (c : ascii) : bool := (nat_of_ascii c =? 10)%nat.

Fixpoint digits_to_end (s : string) : bool :=
  match s with
  | EmptyString => true
  | String c EmptyString => is_digit c || is_newline c
  | String c rest => is_digit c && digits_to_end rest
  end.

Definition re_match_gate (col : string) : bool :=
  match col with
  | String "g" (String d rest) => is_digit d && digits_to_end rest
  | _ => false
  end.

(** The locals of [highlight_alerts] that the checks assign. *)
Record locals : Type := mkLocals {
  styles : list string;
  alert_detected : bool
}.

(** [styles = ['background-color: #ffcccc'] * len(row); alert_detected = True] *)
Definition flagged (row : Series) : locals :=
  mkLocals (repeat "background-color: #ffcccc" (List.length row)) true.

(** [styles = [''] * len(row); alert_detected = False] (lines 202-203) *)
Definition unflagged (row : Series) : locals :=
  mkLocals (repeat "" (List.length row)) false.

Section Highlight.

(** [float(s)] for text [s]: the double read, or [None] where Python raises
    ValueError. *)
Variable str_to_float : string -> option pyfloat.

(** [float(v)] *)
Definition py_float (v : value) : result pyfloat :=
  match v with
  | VNone => Raise (TypeError "float() argument must be a string or a real number, not 'NoneType'")
  | VNum f => Ok f
  | VStr s =>
      match str_to_float s with
      | Some f => Ok f
      | None => Raise (ValueError "could not convert string to float")
      end
  | VOther _ => Raise (TypeError "float() argument must be a string or a real number")
  end.

(** [label in row and pd.notnull(row[label])] *)
Definition present (row : Series) (label : string) : result bool :=
  if contains row label
  then v <- getitem row label ;; Ok (notnull v)
  else Ok false.

(** The shape shared by lines 206-212, 237-243, 245-251 and 253-259:
    [[
      if label in row and pd.notnull(row[label]):
          try:
              if float(row[label]) OP bound: <flag the row>
          except: pass
    ]] *)
Definition guarded_check (row : Series) (label : string)
  (fires : pyfloat -> bool) (st : locals) : result locals :=
  p <- present row label ;;
  if p then
    try_except
      (v <- getitem row label ;;
       f <- py_float v ;;
       if fires f then Ok (flagged row) else Ok st)
      (fun _ => Ok st)
  else Ok st.

(** Lines 206-212: common check for all stations. *)
Definition check_batt (row : Series) (st : locals) : result locals :=
  guarded_check row "batt_volt" (fun f => flt f (FFin 10.5)) st.

(** Lines 217-225: the loop over [gate_cols].  Next to the locals it
    returns the columns whose iteration was entered, oldest first: a ghost
    record that makes the [break] visible. *)
Fixpoint gate_loop (row : Series) (gate_cols : list string) (st : locals)
  : result (locals * list string) :=
  match gate_cols with
  | [] => Ok (st, [])
  | col :: rest =>
      let continue :=
        r <- gate_loop row rest st ;;
        Ok (fst r, col :: snd r) in
      p <- present row col ;;
      if p then
        match (v <- getitem row col ;; py_float v) with
        | Ok f =>
            if fgt f (FFin 0.00)
            then Ok (flagged row, [col])      (* break *)
            else continue
        | Raise _ => continue                 (* except: continue *)
        end
      else continue
  end.

(** Lines 216-225 *)
Definition check_gate (daily_df_columns : list string) (row : Series)
  (st : locals) : result locals :=
  let gate_cols := filter re_match_gate daily_df_columns in
  r <- gate_loop row gate_cols st ;;
  Ok (fst r).

(** Lines 228-233; the test [in row] is in the [elif] of line 227. *)
Definition check_epan (row : Series) (st : locals) : result locals :=
  try_except
    (v <- getitem row "epan_water_depth" ;;
     f <- py_float v ;;
     if flt f (of_int 15) then Ok (flagged row) else Ok st)
    (fun _ => Ok st).

(** Lines 237-259 *)
Definition check_aws (row : Series) (st : locals) : result locals :=
  st <- guarded_check row "rainfall" (fun f => fgt f (of_int 50)) st ;;
  st <- guarded_check row "wind_speed" (fun f => fgt f (of_int 30)) st ;;
  guarded_check row "temperature" (fun f => fgt f (of_int 40)) st.

(** Lines 202-259: the locals when line 261 is reached.  [station_name] and
    [daily_df] are the variables of the enclosing loop. *)
Definition evaluate (station_name : string) (daily_df_columns : list string)
  (row : Series) : result locals :=
  let st := unflagged row in
  (* Common checks for all stations *)
  st <- check_batt row st ;;
  (* Station-specific checks *)
  if String.eqb station_name "Gate" then
    check_gate daily_df_columns row st
  else if String.eqb station_name "EPAN" && contains row "epan_water_depth" then
    check_epan row st
  else if String.eqb station_name "AWS" then
    check_aws row st
  else Ok st.

(** [highlight_alerts(row)] (lines 201-264): the styles returned, and the
    list [alert_rows] of the enclosing scope after the call. *)
Definition highlight_alerts (station_name : string)
  (daily_df_columns : list string) (alert_rows : list Series) (row : Series)
  : result (list string * list Series) :=
  st <- evaluate station_name daily_df_columns row ;;
  let alert_rows :=
    if alert_detected st then alert_rows ++ [row] else alert_rows in
  Ok (styles st, alert_rows).

End Highlight.

End App.

(* ===================================================================== *)
(** * The vocabulary of the specification                                 *)
(* ===================================================================== *)

(** These definitions follow the words of the specification, not the
    code; the theorems below compare the two. *)
Module Spec.

(** ** Table-level constraint check *)

(** A cell that a numeric column can hold: a number or a null. *)
Definition numeric (v : value) : Prop :=
  match v with
  | VNone | VNum _ => True
  | VStr _ | VOther _ => False
  end.

(** The values of [column] are numbers or nulls. *)
Definition numeric_column (df : DataFrame) (column : string) : Prop :=
  Forall (fun r => numeric (cell df column r)) (rows df).

(** "value strictly outside [min, max]" *)
Definition outside (min_val max_val : Z) (v : value) : bool :=
  match v with
  | VNum f => flt f (of_int min_val) || fgt f (of_int max_val)
  | _ => false
  end.

(** "the count of invalid rows" *)
Definition invalid_count (df : DataFrame) (column : string)
  (min_val max_val : Z) : nat :=
  List.length (filter (fun r => outside min_val max_val (cell df column r)) (rows df)).

(** "the violated range" as the message shows it. *)
Definition range_text (min_val max_val : Z) : string :=
  ("[" ++ str_int min_val ++ ", " ++ str_int max_val ++ "]")%string.

(** ** Data access gateway *)

(** "the six known station tables" *)
Definition known_tables : list string := map snd App.data_sources.

(** A store on which every statement fails. *)
Definition unavailable : Db.store :=
  fun _ _ => Raise (DatabaseError "store unavailable").

(** "Fetching an unknown table name is rejected before query construction
    (fails with a configuration/validation error), never forwarded to the
    store": a call for a table outside the six raises, and no statement
    reaches the store. *)
Definition allow_list_enforced : Prop :=
  forall (db : Db.store) (table_name : string)
         (start_date end_date date_column filter_column filter_value : option string),
    ~ In table_name known_tables ->
    (exists e,
        fst (Db.fetch_data db table_name start_date end_date date_column
               filter_column filter_value) = Raise e)
    /\ (forall query bound,
          ~ In (Db.ReadSql query bound)
               (snd (Db.fetch_data db table_name start_date end_date date_column
                       filter_column filter_value))).

(** A well-formed Query Specification: a date or a name that is given is
    not the empty string. *)
Definition nonempty_if_given (o : option string) : Prop := o <> Some "".

(** "a date-range predicate (date_column BETWEEN start_date AND end_date)
    exactly when both start_date and end_date are given" *)
Definition date_predicate (date_column : string)
  (start_date end_date : option string) : option string :=
  match start_date, end_date with
  | Some _, Some _ =>
      Some (date_column ++ " BETWEEN :start_date AND :end_date")%string
  | _, _ => None
  end.

(** "an equality predicate (filter_column = filter_value) exactly when both
    filter column and filter value are given" *)
Definition equality_predicate (filter_column filter_value : option string)
  : option string :=
  match filter_column, filter_value with
  | Some column, Some _ => Some (column ++ " = :filter_value")%string
  | _, _ => None
  end.

(** The statement the specification describes for a designated date
    column: the read of the table, the predicates that apply joined by AND,
    the ordering by the date column. *)
Definition spec_query (table_name : string) (start_date end_date : option string)
  (date_column : string) (filter_column filter_value : option string)
  : string :=
  let where_clause :=
    match date_predicate date_column start_date end_date,
          equality_predicate filter_column filter_value with
    | Some dates, Some equal => (" WHERE " ++ dates ++ " AND " ++ equal)%string
    | Some dates, None => (" WHERE " ++ dates)%string
    | None, Some equal => (" WHERE " ++ equal)%string
    | None, None => ""
    end in
  ("SELECT * FROM " ++ table_name ++ where_clause
   ++ " ORDER BY " ++ date_column)%string.

(** The bound parameters the specification describes: the two dates and
    the filter value, each when its predicate is there. *)
Definition spec_params
  (start_date end_date filter_column filter_value : option string) : Db.params :=
  match start_date, end_date with
  | Some first, Some last => [("start_date", first); ("end_date", last)]
  | _, _ => []
  end
  ++ match filter_column, filter_value with
     | Some _, Some v => [("filter_value", v)]
     | _, _ => []
     end.

(** The rows of a frame come in ascending order of the date column;
    [date_ord] numbers the dates in their order. *)
Definition ascending (date_ord : value -> Z) (date_column : string)
  (df : DataFrame) : Prop :=
  Sorted (fun r r' => (date_ord (cell df date_column r)
                       <= date_ord (cell df date_column r'))%Z)
         (rows df).

(** "two calls with an identical Query Specification against an unchanged
    table return rows in identical order": [db1] and [db2] are the store
    at the first and at the second call; whenever they answer the statement
    from the same rows, each time in ascending order of the date column as
    the statement asks, the two calls return the same. *)
Definition identical_order_guaranteed : Prop :=
  forall (date_ord : value -> Z) (db1 db2 : Db.store) (table_name : string)
         (start_date end_date : option string) (date_column : string)
         (filter_column filter_value : option string) (df1 df2 : DataFrame),
    nonempty_if_given start_date ->
    nonempty_if_given end_date ->
    date_column <> "" ->
    nonempty_if_given filter_column ->
    db1 (spec_query table_name start_date end_date date_column
           filter_column filter_value)
        (spec_params start_date end_date filter_column filter_value) = Ok df1 ->
    db2 (spec_query table_name start_date end_date date_column
           filter_column filter_value)
        (spec_params start_date end_date filter_column filter_value) = Ok df2 ->
    columns df1 = columns df2 ->
    Permutation (rows df1) (rows df2) ->
    ascending date_ord date_column df1 ->
    ascending date_ord date_column df2 ->
    fst (Db.fetch_data db1 table_name start_date end_date (Some date_column)
           filter_column filter_value)
    = fst (Db.fetch_data db2 table_name start_date end_date (Some date_column)
             filter_column filter_value).

(** ** Row-level station alert check *)

(** [a >= b] on floats. *)
Definition fge (a b : pyfloat) : bool :=
  match a, b with
  | FNaN, _ | _, FNaN => false
  | _, _ => negb (flt a b)
  end.

Section Predicates.

Variable str_to_float : string -> option pyfloat.

(** The value a predicate reads: the column is present, its value is
    non-null and numerically parseable. *)
Definition reading (row : Series) (label : string) : option pyfloat :=
  match series_get row label with
  | Some v =>
      if notnull v then
        match App.py_float str_to_float v with
        | Ok f => Some f
        | Raise _ => None
        end
      else None
  | None => None
  end.

(** A predicate: the column it refers to and its threshold test. *)
Definition predicate : Type := string * (pyfloat -> bool).

Definition fires_on (row : Series) (p : predicate) : bool :=
  match reading row (fst p) with
  | Some f => snd p f
  | None => false
  end.

(** "any column whose name matches the pattern, with value > 0.00" *)
Definition gate_predicate (col : string) : predicate :=
  (col, fun f => fgt f (FFin 0.00)).

(** "rainfall > 50, OR wind speed > 30, OR temperature > 40" *)
Definition aws_thresholds : list (string * Z) :=
  [("rainfall", 50); ("wind_speed", 30); ("temperature", 40)]%Z.

(** "universal: battery voltage present and < 10.5" *)
Definition battery : predicate := ("batt_volt", fun f => flt f (FFin 10.5)).

(** The predicates of one station kind, in their precedence. *)
Definition station_predicates (station_name : string)
  (daily_df_columns : list string) : list predicate :=
  if String.eqb station_name "Gate" then
    map gate_predicate (filter App.re_match_gate daily_df_columns)
  else if String.eqb station_name "EPAN" then
    [("epan_water_depth", fun f => flt f (of_int 15))]
  else if String.eqb station_name "AWS" then
    [("rainfall", fun f => fgt f (of_int 50));
     ("wind_speed", fun f => fgt f (of_int 30));
     ("temperature", fun f => fgt f (of_int 40))]
  else [].

Definition predicates (station_name : string)
  (daily_df_columns : list string) : list predicate :=
  battery :: station_predicates station_name daily_df_columns.

(** "A row with zero firing predicates is not an alert." *)
Definition row_alert (station_name : string) (daily_df_columns : list string)
  (row : Series) : bool :=
  existsb (fires_on row) (predicates station_name daily_df_columns).

(** What [highlight_alerts] hands back for a row that is, or is not, an
    alert. *)
Definition outcome (alert : bool) (alert_rows : list Series) (row : Series)
  : list string * list Series :=
  if alert
  then (repeat "background-color: #ffcccc" (List.length row), alert_rows ++ [row])
  else (repeat "" (List.length row), alert_rows).

End Predicates.

(** The locals after a check that fired ([b]) or did not. *)
Definition pick (b : bool) (row : Series) (st : App.locals) : App.locals :=
  if b then App.flagged row else st.

End Spec.

(* ===================================================================== *)
(** * Sample data                                                         *)
(* ===================================================================== *)

Module Samples.

Import App.

(** A [float] on text that reads unsigned decimal integers and rejects
    everything else: one parser among those the theorems range over. *)
Fixpoint digits_value (s : string) (acc : Z) : option Z :=
  match s with
  | EmptyString => Some acc
  | String c rest =>
      if is_digit c
      then digits_value rest (10 * acc + Z.of_nat (nat_of_ascii c) - 48)%Z
      else None
  end.

Definition digits_only (s : string) : option pyfloat :=
  match s with
  | EmptyString => None
  | _ => option_map of_int (digits_value s 0%Z)
  end.

(** Four river readings: below the range, on its lower bound, above it,
    and a null. *)
Definition river_frame : DataFrame :=
  mkDataFrame ["data_date"; "water_level"]
    [ [VStr "2025-05-01"; VNum (of_int 999)];
      [VStr "2025-05-02"; VNum (of_int 1000)];
      [VStr "2025-05-03"; VNum (of_int 2001)];
      [VStr "2025-05-04"; VNone] ].

(** A river frame without the column of the rule; its only column is text. *)
Definition dates_only : DataFrame :=
  mkDataFrame ["data_date"] [[VStr "2025-05-01"]].

(** A gate frame whose [status] is text. *)
Definition status_as_text : DataFrame :=
  mkDataFrame ["data_date"; "status"] [[VStr "2025-05-01"; VStr "open"]].

Definition gate_columns : list string :=
  ["data_date"; "g1"; "g2"; "g3"; "g4"].

Definition gate_row (g3 : Q) : Series :=
  [ ("data_date", VStr "2025-05-01");
    ("g1", VNum (FFin 0.00)); ("g2", VNum (FFin 0.00));
    ("g3", VNum (FFin g3)); ("g4", VNum (FFin 0.00)) ].

Definition aws_row (rainfall : Z) : Series :=
  [ ("rainfall", VNum (of_int rainfall));
    ("wind_speed", VNum (of_int 10));
    ("temperature", VNum (of_int 20)) ].

(** A river reading with a healthy battery, a null and heavy rain. *)
Definition river_row : Series :=
  [ ("batt_volt", VNum (FFin 10.5));
    ("water_level", VNone);
    ("rainfall", VNum (of_int 500)) ].

(** A reading whose battery voltage is text that is no number. *)
Definition garbled_row : Series :=
  [ ("batt_volt", VStr "n/a"); ("g1", VNone) ].

(** The digits of a text read as one number: 2025-05-01 is 20250501, so
    ISO dates are numbered in their order. *)
Fixpoint digits_number (s : string) (acc : Z) : Z :=
  match s with
  | EmptyString => acc
  | String c rest =>
      if is_digit c
      then digits_number rest (10 * acc + Z.of_nat (nat_of_ascii c) - 48)%Z
      else digits_number rest acc
  end.

Definition iso_day (v : value) : Z :=
  match v with
  | VStr s => digits_number s 0%Z
  | _ => 0%Z
  end.

(** Two river readings of one day, and the same two the other way round. *)
Definition same_day : DataFrame :=
  mkDataFrame ["data_date"; "water_level"]
    [ [VStr "2025-05-01"; VNum (of_int 1500)];
      [VStr "2025-05-01"; VNum (of_int 1600)] ].

Definition same_day_swapped : DataFrame :=
  mkDataFrame ["data_date"; "water_level"]
    [ [VStr "2025-05-01"; VNum (of_int 1600)];
      [VStr "2025-05-01"; VNum (of_int 1500)] ].

(** Two river readings of two days. *)
Definition two_days : DataFrame :=
  mkDataFrame ["data_date"; "water_level"]
    [ [VStr "2025-05-01"; VNum (of_int 1500)];
      [VStr "2025-05-02"; VNum (of_int 1600)] ].

(** A store that answers every statement with one frame. *)
Definition answering (df : DataFrame) : Db.store := fun _ _ => Ok df.

End Samples.

(* ===================================================================== *)
(** * app.py, the pages                                                   *)
(* ===================================================================== *)

(** The parts of [app.py] around [fetch_data] and [highlight_alerts]:
    [load_all_data], the station dashboards, the historical explorer and the
    advanced search.  What a widget returns is an argument; what the page
    sends to the store or shows is a list of [ui_event]s. *)
Module Dashboard.

Import Db App.

Inductive ui_event : Type :=
| Sent (e : event)                       (* what [fetch_data] sent or printed *)
| StError (msg : string)                 (* [st.error] *)
| StWarning (msg : string)               (* [st.warning] *)
| NoMatch                                (* [st.info], line 477 *)
| Found (total_records sources : nat).   (* [st.success], line 480 *)

(** The statements among the events, oldest first. *)
Fixpoint statements (events : list ui_event) : list (string * params) :=
  match events with
  | [] => []
  | Sent (ReadSql query bound) :: rest => (query, bound) :: statements rest
  | _ :: rest => statements rest
  end.

(** [d[key] = v] on a dict kept in insertion order. *)
Fixpoint dict_set {V : Type} (d : list (string * V)) (key : string) (v : V)
  : list (string * V) :=
  match d with
  | [] => [(key, v)]
  | (k, x) :: rest =>
      if String.eqb k key then (k, v) :: rest else (k, x) :: dict_set rest key v
  end.

(** [d.get(key)] *)
Fixpoint dict_find {V : Type} (d : list (string * V)) (key : string) : option V :=
  match d with
  | [] => None
  | (k, x) :: rest => if String.eqb k key then Some x else dict_find rest key
  end.

(** The row [r] with the cell under [label] replaced. *)
Fixpoint set_cell (cols : list string) (label : string) (v : value)
  (r : list value) : list value :=
  match cols, r with
  | c :: cols', x :: r' =>
      if String.eqb c label then v :: r' else x :: set_cell cols' label v r'
  | _, _ => r
  end.

(** The rows with the cells under [label] replaced by [series], top to
    bottom; a row the series has no value for gets NaN. *)
Fixpoint assign (cols : list string) (label : string)
  (rows : list (list value)) (series : list value) : list (list value) :=
  match rows with
  | [] => []
  | r :: rows' =>
      match series with
      | v :: series' => set_cell cols label v r :: assign cols label rows' series'
      | [] => set_cell cols label (VNum FNaN) r :: assign cols label rows' []
      end
  end.

(** [df[label] = series], for a label the frame has. *)
Definition df_setitem (df : DataFrame) (label : string) (series : list value)
  : DataFrame :=
  mkDataFrame (columns df) (assign (columns df) label (rows df) series).

(** [df[labels]]: the columns named, in the order given. *)
Definition df_select (df : DataFrame) (labels : list string) : result DataFrame :=
  match find (fun label => negb (has_column df label)) labels with
  | Some label => Raise (KeyError label)
  | None =>
      Ok (mkDataFrame labels
            (map (fun r => map (fun label => cell df label r) labels) (rows df)))
  end.

(** ** Loading (lines 96-136) *)

Section Loading.

Variable db : store.

(** [pd.to_datetime(series)] *)
Variable to_datetime : list value -> result (list value).

(** Lines 100-107, the body of the loop for one station. *)
Definition load_station (name table : string)
  (all_data : list (string * DataFrame))
  : list (string * DataFrame) * list ui_event :=
  let '(fetched, sent) :=
    fetch_data db table None None default_date_column None None in
  let attempt :=
    df <- fetched ;;
    if has_column df "timestamp" then
      s <- df_getitem df "timestamp" ;;
      t <- to_datetime s ;;
      Ok (df_setitem df "timestamp" t)
    else Ok df in
  match attempt with
  | Ok df => (dict_set all_data name df, map Sent sent)
  | Raise e =>
      (dict_set all_data name empty_frame,
       map Sent sent
       ++ [StError ("Error loading " ++ name ++ " data: " ++ exn_str e)%string])
  end.

(** The [for] of line 99. *)
Fixpoint load_loop (sources : list (string * string))
  (all_data : list (string * DataFrame))
  : list (string * DataFrame) * list ui_event :=
  match sources with
  | [] => (all_data, [])
  | (name, table) :: rest =>
      let '(all_data, shown) := load_station name table all_data in
      let '(all_data, shown') := load_loop rest all_data in
      (all_data, shown ++ shown')
  end.

(** [load_all_data()] (lines 97-108) *)
Definition load_all_data : list (string * DataFrame) * list ui_event :=
  load_loop data_sources [].

(** Lines 329-359: the historical explorer after its button is pressed,
    for the table of the station chosen.  [None]: no table is shown. *)
Definition order_for_parameter (hist_df : DataFrame) (param : string)
  : result (DataFrame * list ui_event) :=
  if negb (String.eqb param "All Parameters") then
    if has_column hist_df param then
      df <- df_select hist_df
              (["data_date"; param]
               ++ filter (fun col => negb (existsb (String.eqb col) ["data_date"; param]))
                    (columns hist_df)) ;;
      Ok (df, [])
    else
      Ok (hist_df, [StWarning ("Parameter '" ++ param ++ "' not found in data")%string])
  else Ok (hist_df, []).

Definition load_historical (table param hist_start hist_end : string)
  : option DataFrame * list ui_event :=
  let '(fetched, sent) :=
    fetch_data db table (Some hist_start) (Some hist_end) (Some "data_date")
      None None in
  let attempt :=
    hist_df <- fetched ;;
    if negb (df_empty hist_df) then
      hist_df <- (if has_column hist_df "data_date" then
                    s <- df_getitem hist_df "data_date" ;;
                    t <- to_datetime s ;;
                    Ok (df_setitem hist_df "data_date" t)
                  else Ok hist_df) ;;
      shown <- order_for_parameter hist_df param ;;
      Ok (Some (fst shown), snd shown)
    else
      Ok (None, [StWarning "No historical data found for selected parameters"]) in
  match attempt with
  | Ok (shown, events) => (shown, map Sent sent ++ events)
  | Raise e =>
      (None,
       map Sent sent
       ++ [StError ("Error loading historical data: " ++ exn_str e)%string])
  end.

End Loading.

(** [len(all_data)] (line 126) *)
Definition active_stations (all_data : list (string * DataFrame)) : nat :=
  List.length all_data.

(** [sum(len(df) for df in all_data.values())] (line 129) *)
Definition total_records (all_data : list (string * DataFrame)) : nat :=
  list_sum (map (fun entry => df_len (snd entry)) all_data).

(** ** Station dashboards (lines 168-300) *)

(** What stops the page: a name read before it is bound, or an exception
    nobody catches. *)
Inductive failure : Type :=
| NameError (name : string)
| Uncaught (e : exn).

Section Stations.

Variable str_to_float : string -> option pyfloat.

(** [str(v)], as [astype(str)] applies it to a cell. *)
Variable value_str : value -> string.

(** One cell of [series == text]. *)
Definition eq_text (text : string) (v : value) : bool :=
  match v with
  | VStr s => String.eqb s text
  | _ => false
  end.

(** Lines 176-190 for a frame that is not empty.  [selected_project] is
    the variable of that name as the loop finds it, [None] while it is not
    bound; [choice] is what the select box returns when it is drawn.  The
    result is [daily_df] and the variable as the loop leaves it. *)
Definition daily_frame (df : DataFrame) (selected_date_str : string)
  (selected_project : option string) (choice : string)
  : failure + (DataFrame * option string) :=
  let selected_project :=
    if has_column df "project_name" then Some choice else selected_project in
  if has_column df "data_date" then
    let daily_df :=
      df_mask df (map (fun r => String.eqb (value_str (cell df "data_date" r))
                                  selected_date_str)
                    (rows df)) in
    match selected_project with
    | None => inl (NameError "selected_project")
    | Some project =>
        if negb (String.eqb project "All Projects") then
          match df_getitem daily_df "project_name" with
          | Ok projects =>
              inr (df_mask daily_df (map (eq_text project) projects),
                   selected_project)
          | Raise e => inl (Uncaught e)
          end
        else inr (daily_df, selected_project)
    end
  else inr (empty_frame, selected_project).

(** [daily_df.style.apply(highlight_alerts, axis=1)], rendered: one call
    for each row, top to bottom; the styles of the rows and [alert_rows]
    after the last call. *)
Fixpoint style_rows (station_name : string) (daily_df_columns : list string)
  (rows : list Series) (alert_rows : list Series)
  : result (list (list string) * list Series) :=
  match rows with
  | [] => Ok ([], alert_rows)
  | row :: rest =>
      r <- highlight_alerts str_to_float station_name daily_df_columns
             alert_rows row ;;
      r' <- style_rows station_name daily_df_columns rest (snd r) ;;
      Ok (fst r :: fst r', snd r')
  end.

(** Lines 198-272: the styles shown and [alert_rows] when line 275 is
    reached. *)
Definition station_alerts (station_name : string) (daily_df : DataFrame)
  : result (list (list string) * list Series) :=
  let alert_rows := [] in
  style_rows station_name (columns daily_df)
    (map (as_series daily_df) (rows daily_df)) alert_rows.

End Stations.

(** ** Advanced search (lines 420-480) *)

(** [c.isspace()] for an ASCII character. *)
Definition is_space (c : ascii) : bool :=
  let n := nat_of_ascii c in
  ((9 <=? n) && (n <=? 13) || (28 <=? n) && (n <=? 32))%nat.

Fixpoint lstrip (s : string) : string :=
  match s with
  | EmptyString => EmptyString
  | String c rest => if is_space c then lstrip rest else s
  end.

Fixpoint rstrip (s : string) : string :=
  match s with
  | EmptyString => EmptyString
  | String c rest =>
      match rstrip rest with
      | EmptyString => if is_space c then EmptyString else String c EmptyString
      | kept => String c kept
      end
  end.

(** [s.strip()] for ASCII text: there the whitespace Python strips is
    [is_space].  Other text can hold whitespace of its own (a no-break
    space), which this function keeps. *)
Definition strip (s : string) : string := rstrip (lstrip s).

Fixpoint map_chars (f : ascii -> ascii) (s : string) : string :=
  match s with
  | EmptyString => EmptyString
  | String c rest => String (f c) (map_chars f rest)
  end.

(** [s.lower()] for ASCII text. *)
Definition lower (s : string) : string :=
  map_chars (fun c =>
               let n := nat_of_ascii c in
               if ((65 <=? n) && (n <=? 90))%nat then ascii_of_nat (n + 32) else c)
            s.

(** [s.replace(" ", "_")] *)
Definition spaces_to_underscores (s : string) : string :=
  map_chars (fun c => if Ascii.eqb c " " then "_"%char else c) s.

Section Search.

Variable db : store.
Variable value_str : value -> string.

(** [df.astype(str)] *)
Definition astype_str (df : DataFrame) : DataFrame :=
  mkDataFrame (columns df)
    (map (map (fun v => VStr (value_str v))) (rows df)).

(** Lines 440-464, the body of the loop for one station: [results] and
    [total_records] after it, and what it sent or showed. *)
Definition search_station (name table : string)
  (search_type search_value start_date end_date : string)
  (results : list (string * DataFrame)) (total_records : nat)
  : list (string * DataFrame) * nat * list ui_event :=
  let '(fetched, sent) :=
    fetch_data db table (Some start_date) (Some end_date) (Some "data_date")
      (Some (spaces_to_underscores (lower search_type)))
      (Some (strip search_value)) in
  match fetched with
  | Ok df =>
      if negb (df_empty df) then
        let df := astype_str df in
        (dict_set results name df, (total_records + df_len df)%nat,
         map Sent sent)
      else (results, total_records, map Sent sent)
  | Raise e =>
      (results, total_records,
       map Sent sent
       ++ [StError ("Error searching " ++ name ++ ": " ++ exn_str e)%string])
  end.

Fixpoint search_loop (stations : list (string * string))
  (search_type search_value start_date end_date : string)
  (results : list (string * DataFrame)) (total_records : nat)
  : list (string * DataFrame) * nat * list ui_event :=
  match stations with
  | [] => (results, total_records, [])
  | (name, table) :: rest =>
      let '(results, total_records, shown) :=
        search_station name table search_type search_value start_date end_date
          results total_records in
      let '(results, total_records, shown') :=
        search_loop rest search_type search_value start_date end_date
          results total_records in
      (results, total_records, shown ++ shown')
  end.

(** Lines 426-480: the press of the search button, down to the banner. *)
Definition advanced_search
  (search_type search_value start_date end_date : string)
  : list (string * DataFrame) * nat * list ui_event :=
  if negb (truthy (Some (strip search_value))) then
    ([], 0%nat, [StWarning "Please enter/select a search value"])
  else
    let '(results, total_records, shown) :=
      search_loop data_sources search_type search_value start_date end_date
        [] 0%nat in
    (results, total_records,
     shown ++ [match results with
               | [] => NoMatch
               | _ :: _ => Found total_records (List.length results)
               end]).

End Search.

(** ** The rain-gauge chart (lines 549-550) *)

(** The digits at the head of [s], counted. *)
Fixpoint count_digits (s : string) : nat :=
  match s with
  | String c rest => if is_digit c then S (count_digits rest) else O
  | EmptyString => O
  end.

(** [s] without its first [n] characters. *)
Fixpoint drop (n : nat) (s : string) : string :=
  match n, s with
  | S k, String _ rest => drop k rest
  | _, _ => s
  end.

(** The length of the match of [\d+ days ] at the head of [s], if there is
    one: the digits there, all of them, then the six characters that
    follow. *)
Definition match_days (s : string) : option nat :=
  let n := count_digits s in
  if (0 <? n)%nat && String.prefix " days " (drop n s)
  then Some (n + 6)%nat
  else None.

(** [re.sub(r'\d+ days ', '', s)], left to right; [skip] characters of a
    match are still to be passed over. *)
Fixpoint sub_days (skip : nat) (s : string) : string :=
  match s with
  | EmptyString => EmptyString
  | String c rest =>
      match skip with
      | S k => sub_days k rest
      | O =>
          match match_days s with
          | Some len => sub_days (len - 1) rest
          | None => String c (sub_days 0 rest)
          end
      end
  end.

(** One cell of [ars_data['data_time'].str.replace(r'\d+ days ', '', regex=True)]. *)
Definition clean_time (data_time : string) : string := sub_days 0 data_time.

End Dashboard.

(* ===================================================================== *)
(** * Vocabulary of the further properties                                *)
(* ===================================================================== *)

Module More.

Import Constraints Db App Spec.

(** [s] occurs in [t]. *)
Definition occurs_in (s t : string) : Prop :=
  exists a b : string, t = (a ++ s ++ b)%string.

(** A rule that yields a message: its column is in the frame and some row
    lies outside its range. *)
Definition violated (df : DataFrame) (rule : string * (Z * Z)) : bool :=
  let '(column, (min_val, max_val)) := rule in
  has_column df column
  && negb (invalid_count df column min_val max_val =? 0)%nat.

(** The message of a rule. *)
Definition rule_msg (df : DataFrame) (table_name : string)
  (rule : string * (Z * Z)) : string :=
  let '(column, (min_val, max_val)) := rule in
  alert_msg table_name column min_val max_val
    (invalid_count df column min_val max_val).

(** A rule can be checked: its column, when the frame has it, holds numbers
    or nulls. *)
Definition checkable (df : DataFrame) (rule : string * (Z * Z)) : Prop :=
  has_column df (fst rule) = true -> numeric_column df (fst rule).

(** Every character is a digit from 0 to 9. *)
Fixpoint all_digits (s : string) : bool :=
  match s with
  | EmptyString => true
  | String c rest => is_digit c && all_digits rest
  end.

(** The newline, as a string. *)
Definition newline : string := String (ascii_of_nat 10) EmptyString.

(** No blank in the text. *)
Fixpoint no_blank (s : string) : bool :=
  match s with
  | EmptyString => true
  | String c rest => negb (Ascii.eqb c " ") && no_blank rest
  end.

(** Every character is ASCII. *)
Fixpoint ascii_text (s : string) : bool :=
  match s with
  | EmptyString => true
  | String c rest => (nat_of_ascii c <? 128)%nat && ascii_text rest
  end.

(** Nothing but whitespace. *)
Fixpoint all_space (s : string) : bool :=
  match s with
  | EmptyString => true
  | String c rest => Dashboard.is_space c && all_space rest
  end.

(** What [load_all_data] asks of the store for one table. *)
Definition plain_read (table : string) : string * params :=
  (("SELECT * FROM " ++ table ++ " ORDER BY data_date")%string, []).

(** The frame [load_all_data] keeps for one table: the answer of the store,
    its timestamps converted; the empty frame when the read or the
    conversion fails. *)
Definition loaded (db : store) (to_datetime : list value -> result (list value))
  (table : string) : DataFrame :=
  match db (fst (plain_read table)) (snd (plain_read table)) with
  | Ok df =>
      if has_column df "timestamp" then
        match to_datetime (map (cell df "timestamp") (rows df)) with
        | Ok t => Dashboard.df_setitem df "timestamp" t
        | Raise _ => empty_frame
        end
      else df
  | Raise _ => empty_frame
  end.

(** What the advanced search asks of the store for one table. *)
Definition search_read (column value start_date end_date table : string)
  : string * params :=
  (("SELECT * FROM " ++ table
    ++ " WHERE data_date BETWEEN :start_date AND :end_date AND "
    ++ column ++ " = :filter_value ORDER BY data_date")%string,
   [("start_date", start_date); ("end_date", end_date);
    ("filter_value", value)]).

(** What the historical explorer asks of the store. *)
Definition range_read (start_date end_date table : string) : string * params :=
  (("SELECT * FROM " ++ table
    ++ " WHERE data_date BETWEEN :start_date AND :end_date ORDER BY data_date")%string,
   [("start_date", start_date); ("end_date", end_date)]).

(** What the banner of the search relies on: the total is the sum of the
    frames listed, and every frame listed has a row. *)
Definition banner_holds (results : list (string * DataFrame)) (total : nat) : Prop :=
  total = Dashboard.total_records results
  /\ Forall (fun entry => (1 <= df_len (snd entry))%nat) results.

(** The rows of two frames, one for one: row [i] of the second holds under
    each column that [kept] names what row [i] of the first holds. *)
Definition same_cells (kept : string -> Prop) (df df' : DataFrame) : Prop :=
  forall i r, nth_error (rows df) i = Some r ->
    exists r', nth_error (rows df') i = Some r'
               /\ forall c, kept c -> cell df' c r' = cell df c r.

End More.

(* ===================================================================== *)
(** * More sample data                                                    *)
(* ===================================================================== *)

Module MoreSamples.

Import Db Dashboard.

(** Rules beyond the registry: a column the frame lacks, and two ranges
    on one column. *)
Definition river_rules : Constraints.rules :=
  [ ("water_level", (1000, 2000)); ("flow", (0, 10));
    ("water_level", (0, 5000)) ]%Z.

(** A river frame whose readings are all missing. *)
Definition river_nulls : DataFrame :=
  mkDataFrame ["data_date"; "water_level"]
    [ [VStr "2025-05-01"; VNone]; [VStr "2025-05-02"; VNum FNaN] ].

(** The rows of [Samples.river_frame], bottom up. *)
Definition river_frame_reversed : DataFrame :=
  mkDataFrame ["data_date"; "water_level"]
    [ [VStr "2025-05-04"; VNone];
      [VStr "2025-05-03"; VNum (of_int 2001)];
      [VStr "2025-05-02"; VNum (of_int 1000)];
      [VStr "2025-05-01"; VNum (of_int 999)] ].

(** Two gate readings of two days; no project column. *)
Definition gate_frame : DataFrame :=
  mkDataFrame ["data_date"; "batt_volt"; "g1"]
    [ [VStr "2025-05-01"; VNum (FFin 12.1); VNum (FFin 0.5)];
      [VStr "2025-05-02"; VNum (FFin 12.3); VNum (FFin 0.00)];
      [VStr "2025-05-01"; VNum (FFin 12.2); VNum (FFin 0.00)] ].

(** A weather frame with a project column. *)
Definition aws_frame : DataFrame :=
  mkDataFrame ["data_date"; "project_name"; "rainfall"; "timestamp"]
    [ [VStr "2025-05-01"; VStr "Tapi"; VNum (of_int 60); VStr "2025-05-01 08:00:00"];
      [VStr "2025-05-01"; VStr "Kokan"; VNum (of_int 70); VStr "2025-05-01 09:00:00"];
      [VStr "2025-05-02"; VStr "Tapi"; VNum (of_int 80); VStr "2025-05-02 08:00:00"] ].

(** A store that has the weather table and nothing else. *)
Definition aws_only : store :=
  fun query _ =>
    if String.eqb query "SELECT * FROM aws_data ORDER BY data_date"
    then Ok aws_frame
    else Raise (DatabaseError "no such table").

(** A store that answers every statement with the weather frame. *)
Definition always_aws : store := fun _ _ => Ok aws_frame.

(** A conversion that keeps text as it is: timestamps already read. *)
Definition keep : list value -> result (list value) := fun s => Ok s.

(** A conversion that fails. *)
Definition reject : list value -> result (list value) :=
  fun _ => Raise (ValueError "unknown datetime string format").

(** [str] of a cell, with numbers left blank. *)
Definition text_of (v : value) : string :=
  match v with
  | VNone => "None"
  | VNum _ => "number"
  | VStr s => s
  | VOther s => s
  end.

End MoreSamples.

Import Constraints Db App Spec.

(* ===================================================================== *)
(** * Comparisons                                                         *)
(* ===================================================================== *)

Lemma Qltb_true (a b : Q) : (a < b)%Q -> Qltb a b = true.
Proof.
  intros H. unfold Qltb. destruct (Qle_bool b a) eqn:E; [|reflexivity].
  apply Qle_bool_iff in E. exfalso. exact (Qlt_not_le _ _ H E).
Qed.

Lemma Qltb_false (a b : Q) : (b <= a)%Q -> Qltb a b = false.
Proof.
  intros H. unfold Qltb. apply Qle_bool_iff in H. now rewrite H.
Qed.

Lemma Qltb_lt (a b : Q) : Qltb a b = true -> (a < b)%Q.
Proof.
  unfold Qltb. intros H. apply Qnot_le_lt. intros E.
  apply Qle_bool_iff in E. rewrite E in H. discriminate.
Qed.

(** [f >= b] excludes [f < b]. *)
Lemma fge_not_flt (f b : pyfloat) : fge f b = true -> flt f b = false.
Proof.
  unfold fge. destruct f, b; try discriminate; try reflexivity;
    intros H; now apply negb_true_iff in H.
Qed.

Lemma inject_Z_lt (a b : Z) : (a < b)%Z -> (inject_Z a < inject_Z b)%Q.
Proof. intros H. now rewrite <- Zlt_Qlt. Qed.

Lemma inject_Z_le (a b : Z) : (a <= b)%Z -> (inject_Z a <= inject_Z b)%Q.
Proof. intros H. now rewrite <- Zle_Qle. Qed.

(* ===================================================================== *)
(** * Table-level constraints                                             *)
(* ===================================================================== *)

Lemma dict_get_miss {V : Type} (d : list (string * V)) (key : string) (default : V) :
  ~ In key (map fst d) -> dict_get d key default = default.
Proof.
  induction d as [|[k v] d IH]; cbn; [reflexivity|].
  intros Hnot. destruct (String.eqb_spec k key) as [-> | _].
  - exfalso. apply Hnot. now left.
  - apply IH. intros Hin. apply Hnot. now right.
Qed.

(** Every table of the registry has one rule, with [min_val <= max_val]. *)
Lemma registry_rule (table_name column : string) (min_val max_val : Z) :
  In (column, (min_val, max_val)) (dict_get CONSTRAINTS table_name []) ->
  dict_get CONSTRAINTS table_name [] = [(column, (min_val, max_val))]
  /\ (min_val <= max_val)%Z.
Proof.
  unfold CONSTRAINTS. cbn [dict_get].
  repeat (match goal with
          | |- context [String.eqb ?a table_name] =>
              destruct (String.eqb a table_name)
          end;
          [intros [[= <- <- <-] | []]; split; [reflexivity | lia] |]).
  intros [].
Qed.

Lemma mapM_cmp_numeric (op : pyfloat -> pyfloat -> bool) (k : Z) (l : list value) :
  Forall numeric l ->
  mapM (cmp_cell op k) l
  = Ok (map (fun v => match v with
                      | VNum f => op f (of_int k)
                      | _ => false
                      end) l).
Proof.
  induction 1 as [|v l Hv _ IH]; cbn [mapM map]; [reflexivity|].
  rewrite IH. destruct v; cbn in Hv |- *; now try contradiction.
Qed.

Lemma series_or_map {A : Type} (f g : A -> bool) (l : list A) :
  series_or (map f l) (map g l) = map (fun x => f x || g x) l.
Proof. induction l as [|x l IH]; cbn; [reflexivity | now rewrite IH]. Qed.

Lemma select_map {A : Type} (p : A -> bool) (l : list A) :
  select l (map p l) = filter p l.
Proof.
  induction l as [|x l IH]; cbn; [reflexivity|].
  rewrite IH. now destruct (p x).
Qed.

Lemma filter_none {A : Type} (p : A -> bool) (l : list A) :
  (forall x, In x l -> p x = false) -> filter p l = [].
Proof.
  induction l as [|x l IH]; cbn; [reflexivity|]. intros H.
  rewrite (H x (or_introl eq_refl)). apply IH. intros y Hy. apply H. now right.
Qed.

Lemma has_column_nonempty (df : DataFrame) (column : string) :
  has_column df column = true -> (List.length (columns df) =? 0)%nat = false.
Proof.
  unfold has_column. now destruct (columns df).
Qed.

(** The rows the mask of line 19 keeps are the rows outside the range. *)
Lemma invalid_rows_numeric (df : DataFrame) (column : string) (min_val max_val : Z) :
  has_column df column = true ->
  numeric_column df column ->
  exists below above,
    (s <- df_getitem df column ;; series_lt s min_val) = Ok below
    /\ (s <- df_getitem df column ;; series_gt s max_val) = Ok above
    /\ rows (df_mask df (series_or below above))
       = filter (fun r => outside min_val max_val (cell df column r)) (rows df).
Proof.
  intros Hcol Hnum. unfold df_getitem, series_lt, series_gt. rewrite Hcol.
  cbn [bind].
  assert (Hvals : Forall numeric (map (cell df column) (rows df))).
  { apply Forall_map. exact Hnum. }
  rewrite !(mapM_cmp_numeric _ _ _ Hvals).
  eexists _, _. split; [reflexivity | split; [reflexivity|]].
  cbn [df_mask rows]. rewrite !map_map, series_or_map, select_map.
  apply filter_ext. intros r. unfold outside. now destruct (cell df column r).
Qed.

Lemma check_rule_numeric (df : DataFrame) (table_name column : string)
  (min_val max_val : Z) (alerts : list string) :
  has_column df column = true ->
  numeric_column df column ->
  check_rule df table_name column min_val max_val alerts
  = Ok (match invalid_count df column min_val max_val with
        | O => alerts
        | S _ => alerts ++ [alert_msg table_name column min_val max_val
                              (invalid_count df column min_val max_val)]
        end).
Proof.
  intros Hcol Hnum. unfold check_rule. rewrite Hcol.
  destruct (invalid_rows_numeric df column min_val max_val Hcol Hnum)
    as (below & above & -> & -> & Hrows).
  cbn [bind]. unfold df_empty, df_len, invalid_count. rewrite Hrows.
  cbn [df_mask columns]. rewrite (has_column_nonempty df column Hcol).
  now destruct (filter _ (rows df)).
Qed.

Lemma check_rule_absent (df : DataFrame) (table_name column : string)
  (min_val max_val : Z) (alerts : list string) :
  has_column df column = false ->
  check_rule df table_name column min_val max_val alerts = Ok alerts.
Proof. intros Hcol. unfold check_rule. now rewrite Hcol. Qed.

Lemma string_app_assoc (a b c : string) :
  ((a ++ b) ++ c = a ++ (b ++ c))%string.
Proof. induction a as [|x a IH]; cbn; [reflexivity | now rewrite IH]. Qed.

Lemma outside_iff (min_val max_val : Z) (q : Q) :
  outside min_val max_val (VNum (FFin q)) = true
  <-> (q < inject_Z min_val \/ inject_Z max_val < q)%Q.
Proof.
  cbn. rewrite orb_true_iff. split.
  - intros [H | H]; [left | right]; now apply Qltb_lt.
  - intros [H | H]; [left | right]; now apply Qltb_true.
Qed.

Lemma outside_bounds (min_val max_val : Z) :
  (min_val <= max_val)%Z ->
  outside min_val max_val (VNum (of_int (min_val - 1))) = true
  /\ outside min_val max_val (VNum (of_int (max_val + 1))) = true
  /\ outside min_val max_val (VNum (of_int min_val)) = false
  /\ outside min_val max_val (VNum (of_int max_val)) = false.
Proof.
  intros Hle. unfold of_int. repeat split.
  - apply outside_iff. left. apply inject_Z_lt. lia.
  - apply outside_iff. right. apply inject_Z_lt. lia.
  - cbn. rewrite !Qltb_false; [reflexivity | apply inject_Z_le; lia..].
  - cbn. rewrite !Qltb_false; [reflexivity | apply inject_Z_le; lia..].
Qed.

(** Why the column has to be numeric: on text the comparison of line 19
    raises, and no list is returned. *)
Example text_column_raises :
  exists msg,
    check_constraints Samples.status_as_text "gate_data" = Raise (TypeError msg).
Proof. eexists. reflexivity. Qed.

(** C1.  For a rule [(column, (min_val, max_val))] of the registry and a
    frame that has the column, with numbers or nulls in it: when some row
    lies strictly below [min_val] or strictly above [max_val],
    [check_constraints] returns one message, which shows the table, the
    column, the range and the number of rows outside it.  The values
    [min_val - 1] and [max_val + 1] are outside; [min_val] and [max_val]
    are not, and a frame that holds only them gets no message. *)
Theorem out_of_range_reported (df : DataFrame) (table_name column : string)
  (min_val max_val : Z) :
  In (column, (min_val, max_val)) (dict_get CONSTRAINTS table_name []) ->
  has_column df column = true ->
  numeric_column df column ->
  ((exists r, In r (rows df)
              /\ outside min_val max_val (cell df column r) = true) ->
   (1 <= invalid_count df column min_val max_val)%nat
   /\ check_constraints df table_name
      = Ok [alert_msg table_name column min_val max_val
              (invalid_count df column min_val max_val)])
  /\ (forall n, exists pre mid1 mid2 mid3 post,
         alert_msg table_name column min_val max_val n
         = (pre ++ table_name ++ mid1 ++ column ++ mid2
            ++ range_text min_val max_val ++ mid3 ++ str_nat n ++ post)%string)
  /\ (forall q, outside min_val max_val (VNum (FFin q)) = true
                <-> (q < inject_Z min_val \/ inject_Z max_val < q)%Q)
  /\ (outside min_val max_val (VNum (of_int (min_val - 1))) = true
      /\ outside min_val max_val (VNum (of_int (max_val + 1))) = true
      /\ outside min_val max_val (VNum (of_int min_val)) = false
      /\ outside min_val max_val (VNum (of_int max_val)) = false)
  /\ ((forall r, In r (rows df) ->
                 cell df column r = VNum (of_int min_val)
                 \/ cell df column r = VNum (of_int max_val)) ->
      invalid_count df column min_val max_val = 0%nat
      /\ check_constraints df table_name = Ok []).
Proof.
  intros Hrule Hcol Hnum.
  destruct (registry_rule _ _ _ _ Hrule) as [Hrules Hle].
  assert (Hrun : check_constraints df table_name
                 = Ok (match invalid_count df column min_val max_val with
                       | O => []
                       | S _ => [alert_msg table_name column min_val max_val
                                   (invalid_count df column min_val max_val)]
                       end)).
  { unfold check_constraints. rewrite Hrules. cbn [check_rules].
    rewrite (check_rule_numeric df table_name column min_val max_val [] Hcol Hnum).
    cbn [bind]. now destruct (invalid_count df column min_val max_val). }
  pose proof (outside_bounds min_val max_val Hle) as Hbounds.
  split; [|split; [|split; [|split]]].
  - intros (r & Hin & Hout).
    assert (Hpos : (1 <= invalid_count df column min_val max_val)%nat).
    { unfold invalid_count.
      assert (Hr : In r (filter (fun r => outside min_val max_val (cell df column r))
                           (rows df))) by (apply filter_In; now split).
      destruct (filter _ (rows df)); [contradiction | cbn; lia]. }
    split; [exact Hpos|]. rewrite Hrun.
    destruct (invalid_count df column min_val max_val); [lia | reflexivity].
  - intros n.
    exists "Constraint violation in ", " for column '", "': Values outside ",
      ". Found ", " invalid entries.".
    unfold alert_msg, range_text. rewrite !string_app_assoc. reflexivity.
  - apply outside_iff.
  - exact Hbounds.
  - intros Hedge.
    assert (Hzero : invalid_count df column min_val max_val = 0%nat).
    { unfold invalid_count.
      rewrite filter_none; [reflexivity|]. intros r Hin.
      destruct Hbounds as (_ & _ & Hmin & Hmax).
      destruct (Hedge r Hin) as [-> | ->]; assumption. }
    split; [exact Hzero|]. now rewrite Hrun, Hzero.
Qed.

(** C9.  A table without rules gets the empty list.  A rule whose column
    the frame does not have is passed over without a message and without
    an error, whatever the frame holds: in the loop, and so for each table
    of the registry. *)
Theorem absent_rules_and_columns_skipped :
  (forall df table_name,
      ~ In table_name (map fst CONSTRAINTS) ->
      check_constraints df table_name = Ok [])
  /\ (forall df table_name before column min_val max_val after alerts,
      has_column df column = false ->
      check_rule df table_name column min_val max_val alerts = Ok alerts
      /\ check_rules df table_name
           (before ++ (column, (min_val, max_val)) :: after) alerts
         = check_rules df table_name (before ++ after) alerts)
  /\ (forall df table_name column min_val max_val,
      In (column, (min_val, max_val)) (dict_get CONSTRAINTS table_name []) ->
      has_column df column = false ->
      check_constraints df table_name = Ok []).
Proof.
  split; [|split].
  - intros df table_name Hnot. unfold check_constraints.
    now rewrite (dict_get_miss CONSTRAINTS table_name [] Hnot).
  - intros df table_name before column min_val max_val after alerts Hcol.
    split; [now apply check_rule_absent|].
    revert alerts. induction before as [|[c [lo hi]] before IH]; intros alerts.
    + cbn [app check_rules]. now rewrite check_rule_absent.
    + cbn [app check_rules].
      destruct (check_rule df table_name c lo hi alerts) as [alerts'|e];
        cbn [bind]; [apply IH | reflexivity].
  - intros df table_name column min_val max_val Hrule Hcol.
    destruct (registry_rule _ _ _ _ Hrule) as [Hrules _].
    unfold check_constraints. rewrite Hrules. cbn [check_rules].
    now rewrite check_rule_absent.
Qed.

(* ===================================================================== *)
(** * The data access gateway                                             *)
(* ===================================================================== *)

Lemma string_app_nil_r (a : string) : (a ++ "")%string = a.
Proof. induction a as [|x a IH]; cbn; [reflexivity | now rewrite IH]. Qed.

(** The statement always starts with the read of the table as named. *)
Lemma build_query_shape (table_name : string)
  (start_date end_date date_column filter_column filter_value : option string) :
  exists suffix,
    fst (build_query table_name start_date end_date date_column
           filter_column filter_value)
    = ("SELECT * FROM " ++ table_name ++ suffix)%string.
Proof.
  unfold build_query.
  destruct (truthy start_date && truthy end_date);
    destruct (truthy filter_column
              && match filter_value with Some _ => true | None => false end);
    destruct (truthy date_column); cbn [app fst];
    rewrite ?string_app_assoc; eexists;
    try reflexivity.
  symmetry. apply (f_equal (fun s => ("SELECT * FROM " ++ s)%string)).
  apply string_app_nil_r.
Qed.

Lemma fetch_data_events (db : store) (table_name : string)
  (start_date end_date date_column filter_column filter_value : option string) :
  let q := build_query table_name start_date end_date date_column
             filter_column filter_value in
  fetch_data db table_name start_date end_date date_column
    filter_column filter_value
  = match db (fst q) (snd q) with
    | Ok df => (Ok df, [ReadSql (fst q) (snd q)])
    | Raise e =>
        (Ok empty_frame,
         [ReadSql (fst q) (snd q);
          Print ("Database error: " ++ exn_str e)%string])
    end.
Proof.
  cbv zeta. unfold fetch_data.
  now destruct (build_query table_name start_date end_date date_column
                  filter_column filter_value).
Qed.

(** C2, as the code has it.  [fetch_data] has no allow-list: whatever the
    table name, known or not, it is written into the statement after
    [SELECT * FROM] and the statement is handed to the store, once.  The
    call returns the rows of the store or, when the store raises, prints the
    failure and returns the empty frame; it never raises a validation
    error. *)
Theorem every_table_name_forwarded (db : store) (table_name : string)
  (start_date end_date date_column filter_column filter_value : option string) :
  exists suffix bound,
    build_query table_name start_date end_date date_column
      filter_column filter_value
    = (("SELECT * FROM " ++ table_name ++ suffix)%string, bound)
    /\ fetch_data db table_name start_date end_date date_column
         filter_column filter_value
       = match db ("SELECT * FROM " ++ table_name ++ suffix)%string bound with
         | Ok df =>
             (Ok df,
              [ReadSql ("SELECT * FROM " ++ table_name ++ suffix) bound])
         | Raise e =>
             (Ok empty_frame,
              [ReadSql ("SELECT * FROM " ++ table_name ++ suffix) bound;
               Print ("Database error: " ++ exn_str e)%string])
         end.
Proof.
  destruct (build_query_shape table_name start_date end_date date_column
              filter_column filter_value) as [suffix Hq].
  exists suffix,
    (snd (build_query table_name start_date end_date date_column
            filter_column filter_value)).
  split.
  - rewrite <- Hq. now destruct (build_query _ _ _ _ _ _).
  - rewrite fetch_data_events. cbv zeta. now rewrite Hq.
Qed.

(** A table that does not exist, on a store that is down: the statement is
    sent all the same. *)
Example unknown_table_reaches_store :
  ~ In "no_such_table" known_tables
  /\ fetch_data unavailable "no_such_table" None None default_date_column
       None None
     = (Ok empty_frame,
        [ReadSql "SELECT * FROM no_such_table ORDER BY data_date" [];
         Print "Database error: store unavailable"]).
Proof. split; [cbn; intuition discriminate | reflexivity]. Qed.

(** The negation of C2 as the specification states it: a call for a table
    outside the six does not raise, and its statement reaches the store. *)
Lemma allow_list_not_enforced : ~ allow_list_enforced.
Proof.
  intros H.
  destruct (H unavailable "no_such_table" None None default_date_column None None)
    as [[e He] Hsent].
  - cbn. intuition discriminate.
  - discriminate He.
Qed.

(** C3.  [fetch_data] returns a frame for every store and every argument;
    no exception leaves it.  When the store raises, the frame is the empty
    one and the failure is printed, after the statement was sent. *)
Theorem fetch_failure_recovered :
  (forall db table_name start_date end_date date_column filter_column
          filter_value,
      exists df,
        fst (fetch_data db table_name start_date end_date date_column
               filter_column filter_value) = Ok df)
  /\ (forall db table_name start_date end_date date_column filter_column
             filter_value query bound e,
      build_query table_name start_date end_date date_column
        filter_column filter_value = (query, bound) ->
      db query bound = Raise e ->
      fetch_data db table_name start_date end_date date_column
        filter_column filter_value
      = (Ok empty_frame,
         [ReadSql query bound; Print ("Database error: " ++ exn_str e)%string])
      /\ df_empty empty_frame = true
      /\ df_len empty_frame = 0%nat).
Proof.
  split.
  - intros. rewrite fetch_data_events. cbv zeta.
    destruct (db _ _) as [df | e]; cbn [fst]; eauto.
  - intros db table_name start_date end_date date_column filter_column
      filter_value query bound e Hq Hdb.
    rewrite fetch_data_events. cbv zeta. rewrite Hq. cbn [fst snd].
    rewrite Hdb. auto.
Qed.

Lemma build_query_designated (table_name : string)
  (start_date end_date : option string) (date_column : string)
  (filter_column filter_value : option string) :
  nonempty_if_given start_date ->
  nonempty_if_given end_date ->
  date_column <> "" ->
  nonempty_if_given filter_column ->
  build_query table_name start_date end_date (Some date_column)
    filter_column filter_value
  = (spec_query table_name start_date end_date date_column
       filter_column filter_value,
     spec_params start_date end_date filter_column filter_value).
Proof.
  unfold nonempty_if_given. intros Hs He Hd Hf.
  unfold build_query, spec_query, spec_params, date_predicate, equality_predicate.
  destruct date_column as [|d0 d]; [congruence|].
  destruct start_date as [[|s0 s]|]; try congruence;
    destruct end_date as [[|e0 e]|]; try congruence;
    destruct filter_column as [[|c0 c]|]; try congruence;
    destruct filter_value as [v|];
    cbn [truthy andb app join str_opt];
    rewrite ?string_app_assoc, ?string_app_nil_r; reflexivity.
Qed.

Lemma sorted_weaken {A : Type} (R R' : A -> A -> Prop) (l : list A) :
  (forall a b, R a b -> R' a b) -> Sorted R l -> Sorted R' l.
Proof.
  intros Himp. induction 1 as [|a l _ IH Hhd]; constructor; [exact IH|].
  destruct Hhd; constructor. now apply Himp.
Qed.

Lemma keys_sorted {A : Type} (key : A -> Z) (l : list A) :
  Sorted (fun a b => (key a <= key b)%Z) l ->
  StronglySorted Z.le (map key l).
Proof.
  intros H. apply Sorted_StronglySorted in H.
  - induction H as [|a l _ IH Hall]; cbn; constructor; [exact IH|].
    apply Forall_map. exact Hall.
  - intros a b c Hab Hbc. lia.
Qed.

(** A list of numbers has one ascending arrangement. *)
Lemma ascending_is_unique (l l' : list Z) :
  StronglySorted Z.le l -> StronglySorted Z.le l' -> Permutation l l' -> l = l'.
Proof.
  intros Hl. revert l'. induction Hl as [|a l Hl IH Ha]; intros l' Hl' Hperm.
  - apply Permutation_nil in Hperm. now subst.
  - destruct Hl' as [|b l' Hl' Hb].
    + apply Permutation_sym, Permutation_nil in Hperm. discriminate Hperm.
    + assert (Hab : a = b).
      { assert (Hin : In a (b :: l'))
          by (eapply Permutation_in; [exact Hperm | now left]).
        assert (Hin' : In b (a :: l))
          by (eapply Permutation_in; [symmetry; exact Hperm | now left]).
        rewrite Forall_forall in Ha, Hb.
        destruct Hin as [-> | Hin]; [reflexivity|].
        destruct Hin' as [-> | Hin']; [reflexivity|].
        specialize (Ha b Hin'). specialize (Hb a Hin). lia. }
      subst b. f_equal. apply IH; [exact Hl'|].
      now apply Permutation_cons_inv in Hperm.
Qed.

(** Rows with distinct keys have one arrangement for a given sequence of
    keys. *)
Lemma distinct_keys_fix_the_rows {A : Type} (key : A -> Z) (l l' : list A) :
  Permutation l l' ->
  map key l = map key l' ->
  NoDup (map key l) ->
  l = l'.
Proof.
  revert l'. induction l as [|a l IH]; intros l' Hperm Hkeys Hnodup.
  - apply Permutation_nil in Hperm. now subst.
  - destruct l' as [|b l']; [discriminate Hkeys|].
    cbn in Hkeys. injection Hkeys as Hab Hkeys.
    cbn in Hnodup. apply NoDup_cons_iff in Hnodup as [Hfresh Hnodup].
    assert (Heq : a = b).
    { assert (Hin : In b (a :: l))
        by (eapply Permutation_in; [symmetry; exact Hperm | now left]).
      destruct Hin as [-> | Hin]; [reflexivity|].
      exfalso. apply Hfresh. rewrite Hab. now apply in_map. }
    subst b. f_equal. apply IH; [|exact Hkeys | exact Hnodup].
    now apply Permutation_cons_inv in Hperm.
Qed.

(** C4, as the code has it.  For a Query Specification with a date column
    (the default included) whose given dates and names are not empty,
    [fetch_data] sends the store the statement the specification describes
    and returns its answer: the date range is there exactly when both dates
    are given, the equality exactly when filter column and value are given,
    joined by AND, and the statement ends by ordering on the date column;
    dates and filter value travel as bound parameters.  The statement
    orders by date and by nothing else.  So two answers drawn from the same
    rows, each in ascending order of dates, show the same dates in the same
    order, and are the same answer when no two rows share a date; how rows
    of one date follow each other is left to the store. *)
Theorem query_construction (table_name : string)
  (start_date end_date : option string) (date_column : string)
  (filter_column filter_value : option string) :
  nonempty_if_given start_date ->
  nonempty_if_given end_date ->
  date_column <> "" ->
  nonempty_if_given filter_column ->
  let query := spec_query table_name start_date end_date date_column
                 filter_column filter_value in
  let bound := spec_params start_date end_date filter_column filter_value in
  (forall db : store,
      fetch_data db table_name start_date end_date (Some date_column)
        filter_column filter_value
      = match db query bound with
        | Ok df => (Ok df, [ReadSql query bound])
        | Raise e =>
            (Ok empty_frame,
             [ReadSql query bound;
              Print ("Database error: " ++ exn_str e)%string])
        end)
  /\ build_query table_name start_date end_date (Some date_column)
       filter_column filter_value = (query, bound)
  /\ (exists body, query = (body ++ " ORDER BY " ++ date_column)%string)
  /\ (forall db : store,
        fetch_data db table_name None None default_date_column None None
        = match db ("SELECT * FROM " ++ table_name ++ " ORDER BY data_date")%string
                   [] with
          | Ok df =>
              (Ok df,
               [ReadSql ("SELECT * FROM " ++ table_name ++ " ORDER BY data_date")
                        []])
          | Raise e =>
              (Ok empty_frame,
               [ReadSql ("SELECT * FROM " ++ table_name ++ " ORDER BY data_date")
                        [];
                Print ("Database error: " ++ exn_str e)%string])
          end)
  /\ (forall (date_ord : value -> Z) (db1 db2 : store) (df1 df2 : DataFrame),
        db1 query bound = Ok df1 ->
        db2 query bound = Ok df2 ->
        columns df1 = columns df2 ->
        Permutation (rows df1) (rows df2) ->
        ascending date_ord date_column df1 ->
        ascending date_ord date_column df2 ->
        map (fun r => date_ord (cell df1 date_column r)) (rows df1)
        = map (fun r => date_ord (cell df2 date_column r)) (rows df2)
        /\ (NoDup (map (fun r => date_ord (cell df1 date_column r)) (rows df1)) ->
            fetch_data db1 table_name start_date end_date (Some date_column)
              filter_column filter_value
            = fetch_data db2 table_name start_date end_date (Some date_column)
                filter_column filter_value)).
Proof.
  intros Hs He Hd Hf. cbv zeta.
  pose proof (build_query_designated table_name start_date end_date date_column
                filter_column filter_value Hs He Hd Hf) as Hq.
  assert (Hfetch : forall db : store,
      fetch_data db table_name start_date end_date (Some date_column)
        filter_column filter_value
      = match db (spec_query table_name start_date end_date date_column
                    filter_column filter_value)
                 (spec_params start_date end_date filter_column filter_value) with
        | Ok df =>
            (Ok df,
             [ReadSql (spec_query table_name start_date end_date date_column
                         filter_column filter_value)
                      (spec_params start_date end_date filter_column filter_value)])
        | Raise e =>
            (Ok empty_frame,
             [ReadSql (spec_query table_name start_date end_date date_column
                         filter_column filter_value)
                      (spec_params start_date end_date filter_column filter_value);
              Print ("Database error: " ++ exn_str e)%string])
        end).
  { intros db. rewrite fetch_data_events. cbv zeta. now rewrite Hq. }
  split; [exact Hfetch | split; [exact Hq | split; [|split]]].
  - unfold spec_query. eexists. rewrite <- !string_app_assoc. reflexivity.
  - intros db. rewrite fetch_data_events. reflexivity.
  - intros date_ord db1 db2 df1 df2 Hdb1 Hdb2 Hcols Hperm Hasc1 Hasc2.
    assert (Hcell : forall r, cell df2 date_column r = cell df1 date_column r).
    { intros r. unfold cell, as_series. now rewrite Hcols. }
    unfold ascending in Hasc1, Hasc2.
    assert (Hkeys : map (fun r => date_ord (cell df1 date_column r)) (rows df1)
                    = map (fun r => date_ord (cell df2 date_column r)) (rows df2)).
    { rewrite (map_ext _ (fun r => date_ord (cell df1 date_column r)) 
                 (fun r => f_equal date_ord (Hcell r)) (rows df2)).
      apply ascending_is_unique.
      - now apply keys_sorted.
      - apply keys_sorted.
        eapply sorted_weaken; [|exact Hasc2].
        intros a b Hab. cbv beta in Hab. now rewrite !Hcell in Hab.
      - now apply Permutation_map. }
    split; [exact Hkeys|]. intros Hnodup.
    assert (Hrows : rows df1 = rows df2).
    { apply (distinct_keys_fix_the_rows
               (fun r => date_ord (cell df1 date_column r)));
        [exact Hperm | | exact Hnodup].
      rewrite Hkeys. apply map_ext. intros r. now rewrite Hcell. }
    assert (Hdf : df1 = df2).
    { destruct df1, df2. cbn in *. now subst. }
    rewrite !Hfetch, Hdb1, Hdb2, Hdf. reflexivity.
Qed.

(** The negation of the last part of C4 as the specification states it:
    two rows of one day can come back in either order, and both orders are
    ascending by date. *)
Lemma identical_order_not_guaranteed : ~ identical_order_guaranteed.
Proof.
  intros H.
  specialize (H Samples.iso_day (Samples.answering Samples.same_day)
                (Samples.answering Samples.same_day_swapped)
                "river_data" None None "data_date" None None
                Samples.same_day Samples.same_day_swapped).
  assert (Hsame : fst (fetch_data (Samples.answering Samples.same_day)
                         "river_data" None None (Some "data_date") None None)
                  = fst (fetch_data (Samples.answering Samples.same_day_swapped)
                           "river_data" None None (Some "data_date") None None)).
  { apply H; try discriminate; try reflexivity.
    - apply perm_swap.
    - repeat constructor. cbn. lia.
    - repeat constructor. cbn. lia. }
  cbn in Hsame. discriminate Hsame.
Qed.

(* ===================================================================== *)
(** * Row-level alerts: the code against the predicate table             *)
(* ===================================================================== *)

Section HighlightFacts.

Variable str_to_float : string -> option pyfloat.

Local Abbreviation py_float := (App.py_float str_to_float).
Local Abbreviation reading := (Spec.reading str_to_float).
Local Abbreviation fires_on := (Spec.fires_on str_to_float).
Local Abbreviation guarded_check := (App.guarded_check str_to_float).
Local Abbreviation gate_loop := (App.gate_loop str_to_float).

Lemma pick_pick (b c : bool) (row : Series) (st : locals) :
  pick c row (pick b row st) = pick (b || c) row st.
Proof. destruct b, c; reflexivity. Qed.

Lemma reading_some (row : Series) (label : string) (v : value) (f : pyfloat) :
  series_get row label = Some v -> notnull v = true -> py_float v = Ok f ->
  reading row label = Some f.
Proof.
  intros Hget Hnn Hf. unfold Spec.reading. now rewrite Hget, Hnn, Hf.
Qed.

Lemma reading_inv (row : Series) (label : string) (f : pyfloat) :
  reading row label = Some f ->
  exists v, series_get row label = Some v /\ notnull v = true /\ py_float v = Ok f.
Proof.
  unfold Spec.reading. destruct (series_get row label) as [v|]; [|discriminate].
  destruct (notnull v) eqn:Hnn; [|discriminate].
  destruct (py_float v) as [g|e] eqn:Hf; [|discriminate].
  intros [= <-]. eauto.
Qed.

(** A null value either cannot be converted or converts to NaN. *)
Lemma null_float (v : value) :
  notnull v = false ->
  (exists e, py_float v = Raise e) \/ py_float v = Ok FNaN.
Proof.
  destruct v as [|[]| |]; simpl; try discriminate; eauto.
Qed.

(** How the guard and the conversion of the code relate to [reading]. *)
Lemma read_cases (row : Series) (label : string) :
  (exists f, reading row label = Some f
             /\ present row label = Ok true
             /\ (v <- getitem row label ;; py_float v) = Ok f)
  \/ (reading row label = None
      /\ (present row label = Ok false
          \/ (present row label = Ok true
              /\ exists e, (v <- getitem row label ;; py_float v) = Raise e))).
Proof.
  unfold Spec.reading, present, contains, getitem.
  destruct (series_get row label) as [v|]; simpl; [|auto].
  destruct (notnull v); simpl; [|auto].
  destruct (py_float v) as [f|e]; [left | right]; eauto 6.
Qed.

(** The four guarded checks do what their predicate says. *)
Lemma guarded_check_pick (row : Series) (label : string)
  (fires : pyfloat -> bool) (st : locals) :
  guarded_check row label fires st = Ok (pick (fires_on row (label, fires)) row st).
Proof.
  unfold App.guarded_check, Spec.fires_on. cbn [fst snd].
  destruct (read_cases row label)
    as [(f & -> & -> & Hf) | (-> & [-> | (-> & e & He)])]; cbn [bind].
  - unfold bind in Hf |- *. destruct (getitem row label) as [v|]; [|discriminate].
    rewrite Hf. cbn. now destruct (fires f).
  - reflexivity.
  - unfold bind in He |- *. destruct (getitem row label) as [v|]; [|reflexivity].
    now rewrite He.
Qed.

(** The evaporation-pan check has no null test, and needs none. *)
Lemma check_epan_pick (row : Series) (st : locals) :
  check_epan str_to_float row st
  = Ok (pick (fires_on row ("epan_water_depth", fun f => flt f (of_int 15))) row st).
Proof.
  unfold App.check_epan, getitem, Spec.fires_on, Spec.reading. cbn [fst snd].
  destruct (series_get row "epan_water_depth") as [v|]; cbn [bind try_except];
    [|reflexivity].
  destruct (notnull v) eqn:Hnn.
  - destruct (py_float v) as [f|e]; cbn [bind try_except]; [|reflexivity].
    now destruct (flt f (of_int 15)).
  - destruct (null_float v Hnn) as [[e ->] | ->]; reflexivity.
Qed.

(** The gate loop flags the row exactly when some gate column fires. *)
Lemma gate_loop_pick (row : Series) (gate_cols : list string) (st : locals) :
  exists visited,
    gate_loop row gate_cols st
    = Ok (pick (existsb (fires_on row) (map gate_predicate gate_cols)) row st,
          visited).
Proof.
  induction gate_cols as [|col rest [visited IH]]; cbn [App.gate_loop map existsb].
  - now exists [].
  - rewrite IH. cbn [bind fst snd].
    change (fires_on row (gate_predicate col))
      with (match reading row col with
            | Some f => fgt f (FFin 0.00)
            | None => false
            end).
    destruct (read_cases row col)
      as [(f & -> & -> & ->) | (-> & [-> | (-> & e & ->)])]; cbn [bind orb];
      [|eauto..].
    destruct (fgt f (FFin 0.00)); cbn [orb pick]; eauto.
Qed.

Lemma check_gate_pick (cols : list string) (row : Series) (st : locals) :
  check_gate str_to_float cols row st
  = Ok (pick (existsb (fires_on row)
                (map gate_predicate (filter re_match_gate cols))) row st).
Proof.
  unfold App.check_gate.
  destruct (gate_loop_pick row (filter re_match_gate cols) st) as [visited ->].
  reflexivity.
Qed.

Lemma check_aws_pick (row : Series) (st : locals) :
  check_aws str_to_float row st
  = Ok (pick (existsb (fires_on row) (Spec.station_predicates "AWS" [])) row st).
Proof.
  unfold App.check_aws. rewrite !guarded_check_pick. simpl bind.
  rewrite !guarded_check_pick. simpl bind. rewrite guarded_check_pick.
  rewrite !pick_pick. simpl. now rewrite orb_false_r, orb_assoc.
Qed.

(** [evaluate] computes the alert of the predicate table, and never raises. *)
Lemma evaluate_refines (station_name : string) (cols : list string) (row : Series) :
  evaluate str_to_float station_name cols row
  = Ok (pick (Spec.row_alert str_to_float station_name cols row) row (unflagged row)).
Proof.
  unfold App.evaluate, App.check_batt, Spec.row_alert, Spec.predicates.
  rewrite guarded_check_pick. cbn [bind existsb]. fold Spec.battery.
  unfold Spec.station_predicates.
  destruct (String.eqb station_name "Gate").
  { now rewrite check_gate_pick, pick_pick. }
  destruct (String.eqb_spec station_name "EPAN") as [-> | _]; cbn [andb].
  { destruct (contains row "epan_water_depth") eqn:Hin.
    - rewrite check_epan_pick, pick_pick. cbn [existsb]. now rewrite orb_false_r.
    - replace (String.eqb "EPAN" "AWS") with false by reflexivity.
      cbn [existsb]. rewrite orb_false_r.
      assert (Hno : fires_on row ("epan_water_depth", fun f => flt f (of_int 15)) = false).
      { unfold Spec.fires_on, Spec.reading. cbn [fst]. unfold contains in Hin.
        now destruct (series_get row "epan_water_depth"). }
      now rewrite Hno, orb_false_r. }
  destruct (String.eqb station_name "AWS").
  { now rewrite check_aws_pick, pick_pick. }
  cbn [existsb]. now rewrite orb_false_r.
Qed.

(** [highlight_alerts] in one equation. *)
Lemma highlight_alerts_refines (station_name : string) (cols : list string)
  (alert_rows : list Series) (row : Series) :
  highlight_alerts str_to_float station_name cols alert_rows row
  = Ok (Spec.outcome (Spec.row_alert str_to_float station_name cols row)
                     alert_rows row).
Proof.
  unfold App.highlight_alerts. rewrite evaluate_refines. cbn [bind].
  now destruct (Spec.row_alert str_to_float station_name cols row).
Qed.


Lemma fires_on_intro (row : Series) (label : string) (fires : pyfloat -> bool)
  (v : value) (f : pyfloat) :
  series_get row label = Some v -> notnull v = true -> py_float v = Ok f ->
  fires_on row (label, fires) = fires f.
Proof.
  intros Hget Hnn Hf. unfold Spec.fires_on. cbn [fst snd].
  now rewrite (reading_some row label v f Hget Hnn Hf).
Qed.

Lemma fires_on_num (row : Series) (label : string) (fires : pyfloat -> bool)
  (q : Q) :
  series_get row label = Some (VNum (FFin q)) ->
  fires_on row (label, fires) = fires (FFin q).
Proof. intros Hget. now apply (fires_on_intro row label fires (VNum (FFin q))). Qed.

Lemma fires_on_absent (row : Series) (label : string) (fires : pyfloat -> bool) :
  series_get row label = None -> fires_on row (label, fires) = false.
Proof.
  intros Hget. unfold Spec.fires_on, Spec.reading. cbn [fst]. now rewrite Hget.
Qed.

Lemma fires_on_inv (row : Series) (p : Spec.predicate) :
  fires_on row p = true ->
  exists v f, series_get row (fst p) = Some v /\ notnull v = true
              /\ py_float v = Ok f /\ snd p f = true.
Proof.
  unfold Spec.fires_on. destruct (reading row (fst p)) as [f|] eqn:Hr; [|discriminate].
  intros Hf. destruct (reading_inv _ _ _ Hr) as (v & Hget & Hnn & Hpf). eauto 8.
Qed.

Lemma row_alert_intro (station_name : string) (cols : list string) (row : Series)
  (p : Spec.predicate) :
  In p (Spec.predicates station_name cols) ->
  fires_on row p = true ->
  Spec.row_alert str_to_float station_name cols row = true.
Proof.
  intros Hin Hf. unfold Spec.row_alert. apply existsb_exists. eauto.
Qed.

(** ** The battery predicate *)

(** C5.  Whatever the station, a row whose [batt_volt] is present, non-null
    and converts to a float below 10.5 is flagged: it is highlighted and
    appended to [alert_rows].  So is every row with [batt_volt] equal to
    10.4.  With [batt_volt] equal to 10.5 the battery check leaves the
    locals as they are, and the row is flagged exactly when a predicate of
    its station fires. *)
Theorem battery_below_threshold_flags :
  (forall station_name cols alert_rows row v f,
      series_get row "batt_volt" = Some v ->
      notnull v = true ->
      py_float v = Ok f ->
      flt f (FFin 10.5) = true ->
      highlight_alerts str_to_float station_name cols alert_rows row
      = Ok (repeat "background-color: #ffcccc" (List.length row),
            alert_rows ++ [row]))
  /\ (forall station_name cols alert_rows row q,
      series_get row "batt_volt" = Some (VNum (FFin q)) ->
      (q == 10.4)%Q ->
      highlight_alerts str_to_float station_name cols alert_rows row
      = Ok (repeat "background-color: #ffcccc" (List.length row),
            alert_rows ++ [row]))
  /\ (forall station_name cols alert_rows row q,
      series_get row "batt_volt" = Some (VNum (FFin q)) ->
      (q == 10.5)%Q ->
      (forall st, check_batt str_to_float row st = Ok st)
      /\ highlight_alerts str_to_float station_name cols alert_rows row
         = Ok (Spec.outcome
                 (existsb (fires_on row)
                    (Spec.station_predicates station_name cols))
                 alert_rows row)).
Proof.
  assert (Hflag : forall station_name cols alert_rows row v f,
      series_get row "batt_volt" = Some v ->
      notnull v = true ->
      py_float v = Ok f ->
      flt f (FFin 10.5) = true ->
      highlight_alerts str_to_float station_name cols alert_rows row
      = Ok (repeat "background-color: #ffcccc" (List.length row),
            alert_rows ++ [row])).
  { intros station_name cols alert_rows row v f Hget Hnn Hf Hlt.
    rewrite highlight_alerts_refines.
    rewrite (row_alert_intro station_name cols row Spec.battery).
    - reflexivity.
    - now left.
    - unfold Spec.battery. now rewrite (fires_on_intro row _ _ v f). }
  split; [exact Hflag | split].
  - intros station_name cols alert_rows row q Hget Hq.
    apply (Hflag station_name cols alert_rows row (VNum (FFin q)) (FFin q));
      try reflexivity; try assumption.
    cbn. apply Qltb_true. now rewrite Hq.
  - intros station_name cols alert_rows row q Hget Hq.
    assert (Hno : fires_on row Spec.battery = false).
    { unfold Spec.battery. rewrite (fires_on_num row _ _ q Hget).
      cbn. apply Qltb_false. rewrite Hq. discriminate. }
    split.
    + intros st. unfold App.check_batt. rewrite guarded_check_pick.
      fold Spec.battery. now rewrite Hno.
    + rewrite highlight_alerts_refines. unfold Spec.row_alert, Spec.predicates.
      cbn [existsb]. now rewrite Hno.
Qed.

(** ** Gate stations *)

Lemma fires_on_unreadable (row : Series) (label : string)
  (fires : pyfloat -> bool) (v : value) :
  series_get row label = Some v ->
  notnull v = false \/ (exists e, py_float v = Raise e) ->
  fires_on row (label, fires) = false.
Proof.
  intros Hget H. unfold Spec.fires_on, Spec.reading. cbn [fst]. rewrite Hget.
  destruct H as [-> | [e ->]]; [reflexivity | now destruct (notnull v)].
Qed.

(** One iteration of the gate loop: [break] where the column fires, the
    next column otherwise. *)
Lemma gate_loop_step (row : Series) (col : string) (rest : list string)
  (st : locals) :
  gate_loop row (col :: rest) st
  = if fires_on row (gate_predicate col)
    then Ok (flagged row, [col])
    else r <- gate_loop row rest st ;; Ok (fst r, col :: snd r).
Proof.
  cbn [App.gate_loop].
  change (fires_on row (gate_predicate col))
    with (match reading row col with
          | Some f => fgt f (FFin 0.00)
          | None => false
          end).
  destruct (read_cases row col)
    as [(f & -> & -> & ->) | (-> & [-> | (-> & e & ->)])]; cbn [bind];
    reflexivity.
Qed.

Lemma gate_loop_break (row : Series) (pre : list string) (col : string)
  (rest : list string) (st : locals) :
  (forall c, In c pre -> fires_on row (gate_predicate c) = false) ->
  fires_on row (gate_predicate col) = true ->
  gate_loop row (pre ++ col :: rest) st = Ok (flagged row, pre ++ [col]).
Proof.
  intros Hpre Hcol. induction pre as [|c pre IH]; cbn [app].
  - now rewrite gate_loop_step, Hcol.
  - rewrite gate_loop_step, (Hpre c (or_introl eq_refl)).
    rewrite IH by (intros c' Hc'; apply Hpre; now right).
    reflexivity.
Qed.

Lemma gate_loop_quiet (row : Series) (gate_cols : list string) (st : locals) :
  (forall c, In c gate_cols -> fires_on row (gate_predicate c) = false) ->
  gate_loop row gate_cols st = Ok (st, gate_cols).
Proof.
  intros Hq. induction gate_cols as [|c l IH]; [reflexivity|].
  rewrite gate_loop_step, (Hq c (or_introl eq_refl)).
  rewrite IH by (intros c' Hc'; apply Hq; now right).
  reflexivity.
Qed.

(** C6.  On the Gate station a row is flagged as soon as one column of the
    frame named [g] plus digits holds a present, non-null value that
    converts to a float above 0.00, for instance [g3] = 0.01.  The loop
    stops at the first such column: the columns after it are not visited.
    A row whose gate columns are all exactly 0.00, and whose battery check
    does not fire, is not flagged, and then every gate column has been
    visited. *)
Theorem gate_opening_flags :
  (forall cols alert_rows row col v f,
      In col cols ->
      re_match_gate col = true ->
      series_get row col = Some v ->
      notnull v = true ->
      py_float v = Ok f ->
      fgt f (FFin 0.00) = true ->
      highlight_alerts str_to_float "Gate" cols alert_rows row
      = Ok (repeat "background-color: #ffcccc" (List.length row),
            alert_rows ++ [row]))
  /\ (forall cols alert_rows row q,
      In "g3" cols ->
      series_get row "g3" = Some (VNum (FFin q)) ->
      (q == 0.01)%Q ->
      highlight_alerts str_to_float "Gate" cols alert_rows row
      = Ok (repeat "background-color: #ffcccc" (List.length row),
            alert_rows ++ [row]))
  /\ (forall row before col after st v f,
      (forall c, In c before -> fires_on row (gate_predicate c) = false) ->
      series_get row col = Some v ->
      notnull v = true ->
      py_float v = Ok f ->
      fgt f (FFin 0.00) = true ->
      gate_loop row (before ++ col :: after) st
      = Ok (flagged row, before ++ [col]))
  /\ (forall cols alert_rows row,
      fires_on row Spec.battery = false ->
      (forall col, In col cols -> re_match_gate col = true ->
                   exists q, series_get row col = Some (VNum (FFin q))
                             /\ (q == 0.00)%Q) ->
      highlight_alerts str_to_float "Gate" cols alert_rows row
      = Ok (repeat "" (List.length row), alert_rows)
      /\ gate_loop row (filter re_match_gate cols) (unflagged row)
         = Ok (unflagged row, filter re_match_gate cols)).
Proof.
  assert (Hflag : forall cols alert_rows row col v f,
      In col cols ->
      re_match_gate col = true ->
      series_get row col = Some v ->
      notnull v = true ->
      py_float v = Ok f ->
      fgt f (FFin 0.00) = true ->
      highlight_alerts str_to_float "Gate" cols alert_rows row
      = Ok (repeat "background-color: #ffcccc" (List.length row),
            alert_rows ++ [row])).
  { intros cols alert_rows row col v f Hin Hre Hget Hnn Hf Hgt.
    rewrite highlight_alerts_refines.
    rewrite (row_alert_intro "Gate" cols row (gate_predicate col)).
    - reflexivity.
    - right. cbn. apply in_map, filter_In. now split.
    - unfold gate_predicate. now rewrite (fires_on_intro row _ _ v f). }
  split; [exact Hflag | split; [|split]].
  - intros cols alert_rows row q Hin Hget Hq.
    apply (Hflag cols alert_rows row "g3" (VNum (FFin q)) (FFin q));
      try reflexivity; try assumption.
    cbn. apply Qltb_true. now rewrite Hq.
  - intros row before col after st v f Hbefore Hget Hnn Hf Hgt.
    apply gate_loop_break; [assumption|].
    unfold gate_predicate. now rewrite (fires_on_intro row _ _ v f).
  - intros cols alert_rows row Hbatt Hzero.
    assert (Hq : forall c, In c (filter re_match_gate cols) ->
                           fires_on row (gate_predicate c) = false).
    { intros c Hc. apply filter_In in Hc as [Hin Hre].
      destruct (Hzero c Hin Hre) as (q & Hget & Hq0).
      unfold gate_predicate. rewrite (fires_on_num row _ _ q Hget).
      cbn. apply Qltb_false. rewrite Hq0. discriminate. }
    split; [|now apply gate_loop_quiet].
    rewrite highlight_alerts_refines. unfold Spec.row_alert, Spec.predicates.
    cbn [existsb]. rewrite Hbatt. cbn [orb].
    replace (existsb (fires_on row) (Spec.station_predicates "Gate" cols))
      with false; [reflexivity|].
    symmetry. apply not_true_is_false. intros Hex.
    apply existsb_exists in Hex as (p & Hp & Hfire).
    cbn in Hp. apply in_map_iff in Hp as (c & <- & Hc).
    rewrite (Hq c Hc) in Hfire. discriminate.
Qed.

(** ** Weather stations *)

(** C7.  On the AWS station each of the three checks alone flags the row:
    a present, non-null value of [rainfall], [wind_speed] or [temperature]
    that converts to a float above 50, 30 or 40.  A row with rainfall 51 is
    flagged; with rainfall 50, wind speed 10 and temperature 20, and a
    battery check that does not fire, it is not. *)
Theorem aws_thresholds_flag :
  (forall cols alert_rows row label bound v f,
      In (label, bound) aws_thresholds ->
      series_get row label = Some v ->
      notnull v = true ->
      py_float v = Ok f ->
      fgt f (of_int bound) = true ->
      highlight_alerts str_to_float "AWS" cols alert_rows row
      = Ok (repeat "background-color: #ffcccc" (List.length row),
            alert_rows ++ [row]))
  /\ (forall cols alert_rows row,
      series_get row "rainfall" = Some (VNum (of_int 51)) ->
      series_get row "wind_speed" = Some (VNum (of_int 10)) ->
      series_get row "temperature" = Some (VNum (of_int 20)) ->
      highlight_alerts str_to_float "AWS" cols alert_rows row
      = Ok (repeat "background-color: #ffcccc" (List.length row),
            alert_rows ++ [row]))
  /\ (forall cols alert_rows row,
      fires_on row Spec.battery = false ->
      series_get row "rainfall" = Some (VNum (of_int 50)) ->
      series_get row "wind_speed" = Some (VNum (of_int 10)) ->
      series_get row "temperature" = Some (VNum (of_int 20)) ->
      highlight_alerts str_to_float "AWS" cols alert_rows row
      = Ok (repeat "" (List.length row), alert_rows)).
Proof.
  assert (Hflag : forall cols alert_rows row label bound v f,
      In (label, bound) aws_thresholds ->
      series_get row label = Some v ->
      notnull v = true ->
      py_float v = Ok f ->
      fgt f (of_int bound) = true ->
      highlight_alerts str_to_float "AWS" cols alert_rows row
      = Ok (repeat "background-color: #ffcccc" (List.length row),
            alert_rows ++ [row])).
  { intros cols alert_rows row label bound v f Hin Hget Hnn Hf Hgt.
    rewrite highlight_alerts_refines.
    rewrite (row_alert_intro "AWS" cols row (label, fun x => fgt x (of_int bound))).
    - reflexivity.
    - right. cbn in Hin |- *.
      destruct Hin as [[= <- <-] | [[= <- <-] | [[= <- <-] | []]]]; auto.
    - now rewrite (fires_on_intro row _ _ v f). }
  split; [exact Hflag | split].
  - intros cols alert_rows row Hrain _ _.
    now apply (Hflag cols alert_rows row "rainfall" 50%Z
                 (VNum (of_int 51)) (of_int 51)); [left | ..].
  - intros cols alert_rows row Hbatt Hrain Hwind Htemp.
    rewrite highlight_alerts_refines. unfold Spec.row_alert, Spec.predicates.
    cbn [existsb Spec.station_predicates String.eqb Ascii.eqb Bool.eqb].
    rewrite Hbatt.
    unfold of_int in Hrain, Hwind, Htemp.
    rewrite (fires_on_num row _ _ _ Hrain), (fires_on_num row _ _ _ Hwind),
      (fires_on_num row _ _ _ Htemp).
    reflexivity.
Qed.

(** ** Totality *)

(** C8.  [highlight_alerts] returns for every row and every station; no
    exception leaves it.  Either the row is left plain and [alert_rows]
    untouched, or it is flagged, and then some predicate of the station read
    a present, non-null value that converts to a float passing its
    threshold: a null or unparseable value never fires.  Each check, taken
    alone, leaves the locals as they are on such a value; the gate loop goes
    on to its next column. *)
Theorem highlight_alerts_total :
  (forall station_name cols alert_rows row,
      highlight_alerts str_to_float station_name cols alert_rows row
      = Ok (repeat "" (List.length row), alert_rows)
      \/ (highlight_alerts str_to_float station_name cols alert_rows row
          = Ok (repeat "background-color: #ffcccc" (List.length row),
                alert_rows ++ [row])
          /\ exists label fires v f,
               In (label, fires) (Spec.predicates station_name cols)
               /\ series_get row label = Some v
               /\ notnull v = true
               /\ py_float v = Ok f
               /\ fires f = true))
  /\ (forall row label v,
      series_get row label = Some v ->
      notnull v = false \/ (exists e, py_float v = Raise e) ->
      (forall fires st, guarded_check row label fires st = Ok st)
      /\ (forall rest st,
             gate_loop row (label :: rest) st
             = r <- gate_loop row rest st ;; Ok (fst r, label :: snd r))
      /\ (label = "epan_water_depth" ->
          forall st, check_epan str_to_float row st = Ok st)).
Proof.
  split.
  - intros station_name cols alert_rows row.
    rewrite highlight_alerts_refines.
    destruct (Spec.row_alert str_to_float station_name cols row) eqn:Halert;
      [right | now left].
    split; [reflexivity|].
    apply existsb_exists in Halert as ([label fires] & Hin & Hfire).
    destruct (fires_on_inv _ _ Hfire) as (v & f & Hget & Hnn & Hf & Hok).
    exists label, fires, v, f. auto.
  - intros row label v Hget Hbad. repeat split.
    + intros fires st. rewrite guarded_check_pick.
      now rewrite (fires_on_unreadable row label fires v Hget Hbad).
    + intros rest st. rewrite gate_loop_step. unfold gate_predicate.
      now rewrite (fires_on_unreadable row label _ v Hget Hbad).
    + intros -> st. rewrite check_epan_pick.
      now rewrite (fires_on_unreadable row _ _ v Hget Hbad).
Qed.

(** ** River, Dam and ARS stations *)

(** C10.  On the River, Dam and ARS stations nothing but the battery check
    can flag a row: when [batt_volt] is absent, null, unparseable or at
    least 10.5, the row is left plain and [alert_rows] untouched, whatever
    its other columns hold. *)
Theorem only_battery_flags_plain_stations
  (station_name : string) (cols : list string) (alert_rows : list Series)
  (row : Series) :
  In station_name ["River"; "Dam"; "ARS"] ->
  series_get row "batt_volt" = None
  \/ (exists v, series_get row "batt_volt" = Some v
                /\ (notnull v = false
                    \/ (exists e, py_float v = Raise e)
                    \/ (exists f, py_float v = Ok f /\ fge f (FFin 10.5) = true))) ->
  highlight_alerts str_to_float station_name cols alert_rows row
  = Ok (repeat "" (List.length row), alert_rows).
Proof.
  intros Hstation Hbatt.
  assert (Hno : fires_on row Spec.battery = false).
  { unfold Spec.battery.
    destruct Hbatt as [Habs | (v & Hget & [Hnull | [Herr | (f & Hf & Hge)]])].
    - now apply fires_on_absent.
    - apply (fires_on_unreadable row _ _ v Hget). now left.
    - apply (fires_on_unreadable row _ _ v Hget). now right.
    - destruct (notnull v) eqn:Hnn.
      + rewrite (fires_on_intro row _ _ v f Hget Hnn Hf).
        now apply fge_not_flt.
      + apply (fires_on_unreadable row _ _ v Hget). now left. }
  rewrite highlight_alerts_refines. unfold Spec.row_alert, Spec.predicates.
  cbn [existsb]. rewrite Hno.
  destruct Hstation as [<- | [<- | [<- | []]]]; reflexivity.
Qed.

End HighlightFacts.

(** ** Instances *)

Lemma battery_below_threshold_flags_witness :
  highlight_alerts Samples.digits_only "River" ["batt_volt"] []
    [("batt_volt", VNum (FFin 10.4))]
  = Ok (["background-color: #ffcccc"], [[("batt_volt", VNum (FFin 10.4))]])
  /\ highlight_alerts Samples.digits_only "Dam" ["batt_volt"] []
       [("batt_volt", VNum (FFin 10.5))]
     = Ok ([""], []).
Proof.
  split.
  - apply (proj1 (battery_below_threshold_flags Samples.digits_only) "River" ["batt_volt"] []
             [("batt_volt", VNum (FFin 10.4))] (VNum (FFin 10.4)) (FFin 10.4));
      reflexivity.
  - apply (proj2 (proj2 (proj2 (battery_below_threshold_flags Samples.digits_only)) "Dam" ["batt_volt"] []
             [("batt_volt", VNum (FFin 10.5))] 10.5 eq_refl (Qeq_refl _))).
Defined.


Lemma out_of_range_reported_witness :
  (1 <= invalid_count Samples.river_frame "water_level" 1000 2000)%nat
  /\ check_constraints Samples.river_frame "river_data"
     = Ok ["Constraint violation in river_data for column 'water_level': Values outside [1000, 2000]. Found 2 invalid entries."].
Proof.
  refine (proj1 (out_of_range_reported Samples.river_frame "river_data"
                   "water_level" 1000 2000 _ _ _) _).
  - left. reflexivity.
  - reflexivity.
  - repeat constructor.
  - exists [VStr "2025-05-01"; VNum (of_int 999)]. split; [left|]; reflexivity.
Defined.

Lemma absent_rules_and_columns_skipped_witness :
  check_constraints Samples.river_frame "lake_data" = Ok []
  /\ check_constraints Samples.dates_only "river_data" = Ok [].
Proof.
  split.
  - apply (proj1 absent_rules_and_columns_skipped).
    cbn. intuition discriminate.
  - apply (proj2 (proj2 absent_rules_and_columns_skipped) Samples.dates_only
             "river_data" "water_level" 1000%Z 2000%Z).
    + left. reflexivity.
    + reflexivity.
Defined.

Lemma every_table_name_forwarded_witness :
  exists suffix bound,
    build_query "no_such_table" None None default_date_column None None
    = (("SELECT * FROM " ++ "no_such_table" ++ suffix)%string, bound)
    /\ fetch_data unavailable "no_such_table" None None default_date_column
         None None
       = match unavailable ("SELECT * FROM " ++ "no_such_table" ++ suffix)%string
                 bound with
         | Ok df =>
             (Ok df,
              [ReadSql ("SELECT * FROM " ++ "no_such_table" ++ suffix) bound])
         | Raise e =>
             (Ok empty_frame,
              [ReadSql ("SELECT * FROM " ++ "no_such_table" ++ suffix) bound;
               Print ("Database error: " ++ exn_str e)%string])
         end.
Proof.
  exact (every_table_name_forwarded unavailable "no_such_table" None None
           default_date_column None None).
Defined.

Lemma fetch_failure_recovered_witness :
  fetch_data unavailable "river_data" None None default_date_column None None
  = (Ok empty_frame,
     [ReadSql "SELECT * FROM river_data ORDER BY data_date" [];
      Print "Database error: store unavailable"])
  /\ df_empty empty_frame = true
  /\ df_len empty_frame = 0%nat.
Proof.
  apply (proj2 fetch_failure_recovered unavailable "river_data" None None
           default_date_column None None
           "SELECT * FROM river_data ORDER BY data_date" []
           (DatabaseError "store unavailable"));
    reflexivity.
Defined.

Lemma query_construction_witness :
  fetch_data unavailable "aws_data" (Some "2025-05-01") (Some "2025-05-31")
    (Some "data_date") (Some "project_name") (Some "Tapi")
  = (Ok empty_frame,
     [ReadSql "SELECT * FROM aws_data WHERE data_date BETWEEN :start_date AND :end_date AND project_name = :filter_value ORDER BY data_date"
        [("start_date", "2025-05-01"); ("end_date", "2025-05-31");
         ("filter_value", "Tapi")];
      Print "Database error: store unavailable"])
  /\ map (fun r => Samples.iso_day (cell Samples.same_day "data_date" r))
       (rows Samples.same_day)
     = map (fun r => Samples.iso_day (cell Samples.same_day_swapped "data_date" r))
         (rows Samples.same_day_swapped).
Proof.
  split.
  - apply (proj1 (query_construction "aws_data" (Some "2025-05-01")
                    (Some "2025-05-31") "data_date" (Some "project_name")
                    (Some "Tapi")
                    ltac:(discriminate) ltac:(discriminate)
                    ltac:(discriminate) ltac:(discriminate))
             unavailable).
  - refine (proj1 (proj2 (proj2 (proj2 (proj2
              (query_construction "river_data" None None "data_date" None None
                 ltac:(discriminate) ltac:(discriminate)
                 ltac:(discriminate) ltac:(discriminate)))))
              Samples.iso_day (Samples.answering Samples.same_day)
              (Samples.answering Samples.same_day_swapped)
              Samples.same_day Samples.same_day_swapped
              eq_refl eq_refl eq_refl _ _ _)).
    + apply perm_swap.
    + repeat constructor. cbn. lia.
    + repeat constructor. cbn. lia.
Defined.

Lemma gate_opening_flags_witness :
  highlight_alerts Samples.digits_only "Gate" Samples.gate_columns []
    (Samples.gate_row 0.01)
  = Ok (repeat "background-color: #ffcccc" 5, [Samples.gate_row 0.01])
  /\ gate_loop Samples.digits_only (Samples.gate_row 0.01)
       (["g1"; "g2"] ++ "g3" :: ["g4"]) (unflagged (Samples.gate_row 0.01))
     = Ok (flagged (Samples.gate_row 0.01), ["g1"; "g2"] ++ ["g3"])
  /\ highlight_alerts Samples.digits_only "Gate" Samples.gate_columns []
       (Samples.gate_row 0.00)
     = Ok (repeat "" 5, []).
Proof.
  destruct (gate_opening_flags Samples.digits_only) as (_ & Hg3 & Hbreak & Hzero).
  split; [|split].
  - apply (Hg3 Samples.gate_columns [] (Samples.gate_row 0.01) 0.01);
      [cbn; tauto | reflexivity | reflexivity].
  - apply (Hbreak (Samples.gate_row 0.01) ["g1"; "g2"] "g3" ["g4"]
             (unflagged (Samples.gate_row 0.01)) (VNum (FFin 0.01)) (FFin 0.01));
      try reflexivity.
    intros c [<- | [<- | []]]; reflexivity.
  - apply (Hzero Samples.gate_columns [] (Samples.gate_row 0.00)).
    + reflexivity.
    + intros col [<- | [<- | [<- | [<- | [<- | []]]]]] Hre;
        try discriminate Hre; exists 0.00; split; reflexivity.
Defined.

Lemma aws_thresholds_flag_witness :
  highlight_alerts Samples.digits_only "AWS" ["rainfall"; "wind_speed"; "temperature"] []
    (Samples.aws_row 51)
  = Ok (repeat "background-color: #ffcccc" 3, [Samples.aws_row 51])
  /\ highlight_alerts Samples.digits_only "AWS" ["rainfall"; "wind_speed"; "temperature"] []
       (Samples.aws_row 50)
     = Ok (repeat "" 3, []).
Proof.
  destruct (aws_thresholds_flag Samples.digits_only) as (_ & H51 & H50).
  split.
  - apply (H51 _ [] (Samples.aws_row 51)); reflexivity.
  - apply (H50 _ [] (Samples.aws_row 50)); reflexivity.
Defined.

Lemma highlight_alerts_total_witness :
  (forall fires st,
      guarded_check Samples.digits_only Samples.garbled_row "batt_volt" fires st = Ok st)
  /\ (forall fires st,
       guarded_check Samples.digits_only Samples.garbled_row "g1" fires st = Ok st).
Proof.
  split.
  - apply (proj2 (highlight_alerts_total Samples.digits_only) Samples.garbled_row
             "batt_volt" (VStr "n/a")); [reflexivity|].
    right. eexists. reflexivity.
  - apply (proj2 (highlight_alerts_total Samples.digits_only) Samples.garbled_row
             "g1" VNone); [reflexivity|].
    left. reflexivity.
Defined.

Lemma only_battery_flags_plain_stations_witness :
  highlight_alerts Samples.digits_only "River" ["batt_volt"; "water_level"; "rainfall"] []
    Samples.river_row
  = Ok (repeat "" 3, []).
Proof.
  apply (only_battery_flags_plain_stations Samples.digits_only "River" _ []
           Samples.river_row).
  - left. reflexivity.
  - right. exists (VNum (FFin 10.5)). split; [reflexivity|].
    right. right. exists (FFin 10.5). split; reflexivity.
Defined.

(* ===================================================================== *)
(** * Further properties of the constraint check                          *)
(* ===================================================================== *)

Import More.

Lemma null_is_numeric (v : value) : notnull v = false -> numeric v.
Proof. destruct v as [|[]| |]; cbn; try discriminate; auto. Qed.

Lemma null_not_outside (min_val max_val : Z) (v : value) :
  notnull v = false -> outside min_val max_val v = false.
Proof. destruct v as [|[]| |]; cbn; try discriminate; auto. Qed.

(** The loop of line 17, rule after rule. *)
Lemma check_rules_numeric (df : DataFrame) (table_name : string)
  (constraints : rules) (alerts : list string) :
  Forall (checkable df) constraints ->
  check_rules df table_name constraints alerts
  = Ok (alerts ++ map (rule_msg df table_name) (filter (violated df) constraints)).
Proof.
  intros Hok. revert alerts.
  induction Hok as [|[column [min_val max_val]] rest Hrule _ IH]; intros alerts.
  - cbn. now rewrite app_nil_r.
  - cbn [check_rules filter violated]. unfold checkable in Hrule. cbn [fst] in Hrule.
    destruct (has_column df column) eqn:Hcol.
    + rewrite (check_rule_numeric df table_name column min_val max_val alerts
                 Hcol (Hrule eq_refl)).
      cbn [bind andb]. rewrite IH.
      destruct (invalid_count df column min_val max_val) eqn:Hn; cbn [Nat.eqb negb].
      * reflexivity.
      * cbn [map rule_msg]. rewrite Hn, <- app_assoc. reflexivity.
    + rewrite (check_rule_absent df table_name column min_val max_val alerts Hcol).
      cbn [bind andb]. apply IH.
Qed.

(** X1.  For any list of rules, not only the registry: when every rule can
    be checked, the loop returns the messages of the violated rules, in the
    order of the rules, after the messages it was given; so no more
    messages than rules. *)
Theorem messages_follow_the_rules (df : DataFrame) (table_name : string)
  (constraints : rules) (alerts : list string) :
  Forall (checkable df) constraints ->
  check_rules df table_name constraints alerts
  = Ok (alerts ++ map (rule_msg df table_name) (filter (violated df) constraints))
  /\ (List.length (map (rule_msg df table_name) (filter (violated df) constraints))
      <= List.length constraints)%nat.
Proof.
  intros Hok. split; [now apply check_rules_numeric|].
  rewrite length_map. apply filter_length_le.
Qed.

(** X2.  Missing readings are no violations: for a rule of the registry
    whose column holds only nulls (None or NaN), [check_constraints]
    returns no message. *)
Theorem nulls_are_not_violations (df : DataFrame) (table_name column : string)
  (min_val max_val : Z) :
  In (column, (min_val, max_val)) (dict_get CONSTRAINTS table_name []) ->
  (forall r, In r (rows df) -> notnull (cell df column r) = false) ->
  check_constraints df table_name = Ok [].
Proof.
  intros Hrule Hnull.
  destruct (registry_rule _ _ _ _ Hrule) as [Hrules _].
  unfold check_constraints. rewrite Hrules. cbn [check_rules].
  destruct (has_column df column) eqn:Hcol.
  - rewrite check_rule_numeric; [|assumption|].
    + cbn [bind]. unfold invalid_count. rewrite filter_none; [reflexivity|].
      intros r Hr. apply null_not_outside. now apply Hnull.
    + apply Forall_forall. intros r Hr. apply null_is_numeric. now apply Hnull.
  - now rewrite check_rule_absent.
Qed.

Lemma cmp_cell_raises (op : pyfloat -> pyfloat -> bool) (k : Z) (l : list value) :
  (exists v, In v l /\ ~ numeric v) ->
  exists msg, mapM (cmp_cell op k) l = Raise (TypeError msg).
Proof.
  induction l as [|x l IH]; intros (v & Hin & Hbad); [contradiction|].
  assert (Hrest : numeric x -> exists msg, mapM (cmp_cell op k) l = Raise (TypeError msg)).
  { intros Hx. apply IH. exists v. split; [|assumption].
    destruct Hin as [<- | Hin]; [contradiction | assumption]. }
  cbn [mapM]. destruct x as [|f|s|r]; cbn [cmp_cell bind].
  - destruct (Hrest I) as [msg ->]. cbn [bind]. eauto.
  - destruct (Hrest I) as [msg ->]. cbn [bind]. eauto.
  - eauto.
  - eauto.
Qed.

(** X3.  Text in the column of a rule is an error, not a violation: for a
    rule of the registry whose column is in the frame, one cell that is
    neither a number nor a null makes [check_constraints] raise TypeError;
    no list of messages is returned. *)
Theorem text_in_rule_column_raises (df : DataFrame) (table_name column : string)
  (min_val max_val : Z) :
  In (column, (min_val, max_val)) (dict_get CONSTRAINTS table_name []) ->
  has_column df column = true ->
  (exists r, In r (rows df) /\ ~ numeric (cell df column r)) ->
  exists msg, check_constraints df table_name = Raise (TypeError msg).
Proof.
  intros Hrule Hcol (r & Hr & Hbad).
  destruct (registry_rule _ _ _ _ Hrule) as [Hrules _].
  unfold check_constraints. rewrite Hrules. cbn [check_rules].
  unfold check_rule, df_getitem, series_lt. rewrite Hcol. cbn [bind].
  destruct (cmp_cell_raises flt min_val (map (cell df column) (rows df)))
    as [msg ->].
  - exists (cell df column r). split; [now apply in_map | assumption].
  - exists msg. reflexivity.
Qed.

Lemma filter_length_perm {A : Type} (p : A -> bool) (l l' : list A) :
  Permutation l l' ->
  List.length (filter p l) = List.length (filter p l').
Proof.
  induction 1 as [| x l l' _ IH | x y l | l l' l'' _ IH1 _ IH2]; cbn.
  - reflexivity.
  - destruct (p x); cbn; now rewrite IH.
  - destruct (p x), (p y); reflexivity.
  - now rewrite IH1.
Qed.

(** X4.  The order of the rows does not matter: two frames with the same
    columns and the same rows in another order get the same messages, for a
    rule of the registry whose column holds numbers or nulls. *)
Theorem row_order_is_irrelevant (df df' : DataFrame) (table_name column : string)
  (min_val max_val : Z) :
  In (column, (min_val, max_val)) (dict_get CONSTRAINTS table_name []) ->
  columns df = columns df' ->
  Permutation (rows df) (rows df') ->
  numeric_column df column ->
  check_constraints df table_name = check_constraints df' table_name.
Proof.
  intros Hrule Hcols Hperm Hnum.
  destruct (registry_rule _ _ _ _ Hrule) as [Hrules _].
  assert (Hcell : forall r, cell df' column r = cell df column r).
  { intros r. unfold cell, as_series. now rewrite Hcols. }
  assert (Hnum' : numeric_column df' column).
  { unfold numeric_column in *. rewrite Forall_forall in *. intros r Hr.
    rewrite Hcell. apply Hnum.
    eapply Permutation_in; [symmetry; exact Hperm | exact Hr]. }
  assert (Hcount : invalid_count df' column min_val max_val
                   = invalid_count df column min_val max_val).
  { unfold invalid_count.
    rewrite (filter_ext _ (fun r => outside min_val max_val (cell df column r)))
      by (intros r; now rewrite Hcell).
    symmetry. now apply filter_length_perm. }
  unfold check_constraints. rewrite Hrules. cbn [check_rules].
  destruct (has_column df column) eqn:Hcol.
  - assert (Hcol' : has_column df' column = true)
      by (unfold has_column in *; now rewrite <- Hcols).
    rewrite !check_rule_numeric by assumption. now rewrite Hcount.
  - assert (Hcol' : has_column df' column = false)
      by (unfold has_column in *; now rewrite <- Hcols).
    now rewrite !check_rule_absent.
Qed.

(* ===================================================================== *)
(** * Further properties of the gateway                                   *)
(* ===================================================================== *)

Lemma truthy_nonempty (s : string) : s <> "" -> truthy (Some s) = true.
Proof. destruct s; [congruence | reflexivity]. Qed.

(** X5.  Dates and the filter value never reach the text of the statement:
    with other dates and another value the text is the same, character for
    character; only the bound parameters differ. *)
Theorem values_are_bound_not_interpolated (table_name : string)
  (date_column filter_column : option string)
  (start_date end_date filter_value start_date' end_date' filter_value' : string) :
  start_date <> "" -> end_date <> "" ->
  start_date' <> "" -> end_date' <> "" ->
  fst (build_query table_name (Some start_date) (Some end_date) date_column
         filter_column (Some filter_value))
  = fst (build_query table_name (Some start_date') (Some end_date') date_column
           filter_column (Some filter_value'))
  /\ map fst (snd (build_query table_name (Some start_date) (Some end_date)
                     date_column filter_column (Some filter_value)))
     = map fst (snd (build_query table_name (Some start_date') (Some end_date')
                       date_column filter_column (Some filter_value'))).
Proof.
  intros Hs He Hs' He'. unfold build_query.
  rewrite !truthy_nonempty by assumption. cbn [andb].
  destruct (truthy filter_column); destruct (truthy date_column);
    split; reflexivity.
Qed.

(** X6.  Half a filter is no filter: a date range with one end missing, a
    filter column without a value and a filter value without a column are
    dropped without a word, and the statement reads as if they had not been
    given. *)
Theorem half_given_filters_are_dropped (table_name : string)
  (start_date end_date date_column filter_column filter_value : option string) :
  build_query table_name start_date None date_column filter_column filter_value
  = build_query table_name None None date_column filter_column filter_value
  /\ build_query table_name None end_date date_column filter_column filter_value
     = build_query table_name None None date_column filter_column filter_value
  /\ build_query table_name start_date end_date date_column filter_column None
     = build_query table_name start_date end_date date_column None None
  /\ build_query table_name start_date end_date date_column None filter_value
     = build_query table_name start_date end_date date_column None None.
Proof.
  unfold build_query. cbn [truthy andb]. rewrite !andb_false_r.
  repeat split; reflexivity.
Qed.

Lemma occurs_in_here (s a b : string) : occurs_in s (a ++ s ++ b).
Proof. now exists a, b. Qed.

Lemma occurs_in_app_l (s x y : string) : occurs_in s x -> occurs_in s (x ++ y).
Proof.
  intros (a & b & ->). exists a, (b ++ y)%string.
  now rewrite !string_app_assoc.
Qed.

Lemma occurs_in_app_r (s x y : string) : occurs_in s y -> occurs_in s (x ++ y).
Proof.
  intros (a & b & ->). exists (x ++ a)%string, b.
  now rewrite !string_app_assoc.
Qed.

(** Looks for a known occurrence in one of the parts of an append. *)
Ltac find_occurrence :=
  solve [ assumption
        | apply occurs_in_app_l; find_occurrence
        | apply occurs_in_app_r; find_occurrence ].

(** X7.  Every bound parameter has its placeholder: a name in [params]
    occurs in the statement after a colon; the names are distinct, and there
    are three at most. *)
Theorem bound_parameters_have_placeholders (table_name : string)
  (start_date end_date date_column filter_column filter_value : option string) :
  let q := build_query table_name start_date end_date date_column
             filter_column filter_value in
  (forall name v, In (name, v) (snd q) -> occurs_in (":" ++ name) (fst q))
  /\ NoDup (map fst (snd q))
  /\ (List.length (snd q) <= 3)%nat.
Proof.
  cbv zeta. unfold build_query.
  assert (Hs : occurs_in ":start_date" " BETWEEN :start_date AND :end_date")
    by now exists " BETWEEN ", " AND :end_date".
  assert (He : occurs_in ":end_date" " BETWEEN :start_date AND :end_date")
    by now exists " BETWEEN :start_date AND ", "".
  assert (Hv : occurs_in ":filter_value" " = :filter_value")
    by now exists " = ", "".
  destruct (truthy start_date && truthy end_date);
    destruct (truthy filter_column
              && match filter_value with Some _ => true | None => false end);
    destruct (truthy date_column);
    cbn [app join snd fst List.length map];
    (split; [|split; [|lia]]);
    try (repeat constructor; cbn; intuition discriminate);
    intros name v Hin; cbn [In] in Hin;
    repeat (destruct Hin as [[= <- <-] | Hin]; [find_occurrence|]);
    contradiction.
Qed.

(* ===================================================================== *)
(** * Further properties of the row alerts                                *)
(* ===================================================================== *)

Lemma is_newline_eq (c : ascii) : is_newline c = true -> String c "" = newline.
Proof.
  unfold is_newline, newline. intros H. apply Nat.eqb_eq in H.
  now rewrite <- H, ascii_nat_embedding.
Qed.

Lemma digit_is_no_newline (c : ascii) : is_digit c = true -> is_newline c = false.
Proof.
  unfold is_digit, is_newline. intros H. apply andb_true_iff in H as [H _].
  apply Nat.leb_le in H. apply Nat.eqb_neq. lia.
Qed.

Lemma digits_to_end_cons (c : ascii) (rest : string) :
  rest <> "" ->
  digits_to_end (String c rest) = is_digit c && digits_to_end rest.
Proof. destruct rest; [congruence | reflexivity]. Qed.

Lemma digits_to_end_spec (rest : string) :
  digits_to_end rest = true
  <-> exists ds, all_digits ds = true
                 /\ (rest = ds \/ rest = (ds ++ newline)%string).
Proof.
  induction rest as [|c rest IH].
  - split; [|reflexivity]. intros _. exists "". split; [reflexivity | now left].
  - destruct rest as [|c' rest'].
    + cbn [digits_to_end]. split.
      * intros H. apply orb_true_iff in H as [H | H].
        -- exists (String c ""). split; [cbn; now rewrite H | now left].
        -- exists "". split; [reflexivity | right]. now apply is_newline_eq.
      * intros (ds & Hds & [H | H]).
        -- subst ds. cbn in Hds. apply andb_true_iff in Hds as [-> _]. reflexivity.
        -- destruct ds as [|x ds]; cbn in H.
           ++ injection H as ->. apply orb_true_r.
           ++ injection H as _ H. destruct ds; discriminate H.
    + rewrite digits_to_end_cons by discriminate. rewrite andb_true_iff, IH.
      split.
      * intros (Hc & ds & Hds & H). exists (String c ds). split.
        -- cbn. now rewrite Hc.
        -- cbn. destruct H as [-> | ->]; auto.
      * intros (ds & Hds & H). destruct ds as [|x ds].
        -- destruct H as [H | H]; discriminate H.
        -- cbn in Hds. apply andb_true_iff in Hds as [Hx Hds].
           destruct H as [H | H]; cbn in H; injection H as -> H;
             (split; [assumption | exists ds; split; [assumption | auto]]).
Qed.

(** X8.  A column counts as a gate column exactly when its name is [g]
    followed by one digit or more, or such a name followed by one final
    newline; [g] alone, a capital [G], [gate] or [g1a] do not count. *)
Theorem gate_column_names (col : string) :
  re_match_gate col = true
  <-> exists ds, ds <> ""
                 /\ all_digits ds = true
                 /\ (col = ("g" ++ ds)%string
                     \/ col = ("g" ++ ds ++ newline)%string).
Proof.
  split.
  - destruct col as [|c [|d rest]]; try discriminate.
    + destruct c as [[] [] [] [] [] [] [] []]; discriminate.
    + destruct c as [[] [] [] [] [] [] [] []]; try discriminate.
      cbn [re_match_gate]. intros H. apply andb_true_iff in H as [Hd Hrest].
      apply digits_to_end_spec in Hrest as (ds & Hds & Hrest).
      exists (String d ds). split; [discriminate | split].
      * cbn. now rewrite Hd.
      * cbn. destruct Hrest as [-> | ->]; auto.
  - intros (ds & Hne & Hds & H). destruct ds as [|d ds]; [congruence|].
    cbn in Hds. apply andb_true_iff in Hds as [Hd Hds].
    assert (Hrest : forall rest, rest = ds \/ rest = (ds ++ newline)%string ->
                                 re_match_gate (String "g" (String d rest)) = true).
    { intros rest Hr. cbn [re_match_gate]. rewrite Hd. cbn [andb].
      apply digits_to_end_spec. eauto. }
    destruct H as [-> | ->]; apply Hrest; auto.
Qed.

Lemma gate_column_names_witness :
  re_match_gate "g12" = true.
Proof.
  apply (proj2 (gate_column_names "g12")). exists "12".
  split; [discriminate | split; [reflexivity | now left]].
Defined.

Section MoreHighlightFacts.

Variable str_to_float : string -> option pyfloat.

Local Abbreviation py_float := (App.py_float str_to_float).
Local Abbreviation fires_on := (Spec.fires_on str_to_float).

Lemma float_below_is_not_null (v : value) (f b : pyfloat) :
  py_float v = Ok f -> flt f b = true -> notnull v = true.
Proof.
  destruct v as [|[]| |]; cbn; try discriminate; try reflexivity.
  intros [= <-]. discriminate.
Qed.

(** X9.  On the EPAN station a row whose [epan_water_depth] converts to a
    float below 15 is flagged; the code asks for no null test there and
    needs none.  With the depth absent, unparseable or not below 15, and a
    battery check that does not fire, the row is not flagged, whatever its
    rainfall, wind speed, temperature or gate columns hold. *)
Theorem epan_depth_flags :
  (forall cols alert_rows row v f,
      series_get row "epan_water_depth" = Some v ->
      py_float v = Ok f ->
      flt f (of_int 15) = true ->
      highlight_alerts str_to_float "EPAN" cols alert_rows row
      = Ok (repeat "background-color: #ffcccc" (List.length row),
            alert_rows ++ [row]))
  /\ (forall cols alert_rows row,
      fires_on row Spec.battery = false ->
      series_get row "epan_water_depth" = None
      \/ (exists v, series_get row "epan_water_depth" = Some v
                    /\ ((exists e, py_float v = Raise e)
                        \/ (exists f, py_float v = Ok f
                                      /\ flt f (of_int 15) = false))) ->
      highlight_alerts str_to_float "EPAN" cols alert_rows row
      = Ok (repeat "" (List.length row), alert_rows)).
Proof.
  split.
  - intros cols alert_rows row v f Hget Hf Hlt.
    rewrite highlight_alerts_refines.
    rewrite (row_alert_intro str_to_float "EPAN" cols row
               ("epan_water_depth", fun x => flt x (of_int 15))).
    + reflexivity.
    + right. now left.
    + rewrite (fires_on_intro str_to_float row _ _ v f Hget); [assumption | | assumption].
      exact (float_below_is_not_null v f _ Hf Hlt).
  - intros cols alert_rows row Hbatt Hdepth.
    rewrite highlight_alerts_refines. unfold Spec.row_alert, Spec.predicates.
    cbn [existsb Spec.station_predicates String.eqb Ascii.eqb Bool.eqb].
    rewrite Hbatt. cbn [orb].
    replace (fires_on row ("epan_water_depth", fun f => flt f (of_int 15)))
      with false; [reflexivity|].
    symmetry.
    destruct Hdepth as [Habs | (v & Hget & [Herr | (f & Hf & Hge)])].
    + now apply fires_on_absent.
    + apply (fires_on_unreadable str_to_float row _ _ v Hget). now right.
    + destruct (notnull v) eqn:Hnn.
      * now rewrite (fires_on_intro str_to_float row _ _ v f Hget Hnn Hf).
      * apply (fires_on_unreadable str_to_float row _ _ v Hget). now left.
Qed.

Lemma existsb_agree {A : Type} (f g : A -> bool) (l : list A) :
  (forall x, In x l -> f x = g x) -> existsb f l = existsb g l.
Proof.
  induction l as [|x l IH]; cbn; [reflexivity|]. intros H.
  rewrite (H x (or_introl eq_refl)), IH; [reflexivity|].
  intros y Hy. apply H. now right.
Qed.

(** X10.  The alert of a row depends on nothing but the columns its
    station's predicates read: [batt_volt] and, by station, the gate
    columns of the frame, [epan_water_depth], or [rainfall], [wind_speed]
    and [temperature].  Two rows that agree on these are flagged together
    or not at all. *)
Theorem alert_reads_only_predicate_columns (station_name : string)
  (cols : list string) (alert_rows alert_rows' : list Series) (row row' : Series) :
  (forall label fires,
      In (label, fires) (Spec.predicates station_name cols) ->
      series_get row label = series_get row' label) ->
  exists alert,
    highlight_alerts str_to_float station_name cols alert_rows row
    = Ok (Spec.outcome alert alert_rows row)
    /\ highlight_alerts str_to_float station_name cols alert_rows' row'
       = Ok (Spec.outcome alert alert_rows' row').
Proof.
  intros Hsame.
  exists (Spec.row_alert str_to_float station_name cols row).
  rewrite !highlight_alerts_refines. split; [reflexivity|].
  do 2 f_equal. unfold Spec.row_alert. symmetry.
  apply existsb_agree. intros [label fires] Hin.
  unfold Spec.fires_on, Spec.reading. cbn [fst snd].
  now rewrite (Hsame label fires Hin).
Qed.

End MoreHighlightFacts.

Lemma epan_depth_flags_witness :
  highlight_alerts Samples.digits_only "EPAN" ["epan_water_depth"; "rainfall"] []
    [("epan_water_depth", VStr "14"); ("rainfall", VNum (of_int 0))]
  = Ok (repeat "background-color: #ffcccc" 2,
        [[("epan_water_depth", VStr "14"); ("rainfall", VNum (of_int 0))]])
  /\ highlight_alerts Samples.digits_only "EPAN" ["epan_water_depth"; "rainfall"] []
       [("epan_water_depth", VNum (of_int 15)); ("rainfall", VNum (of_int 500))]
     = Ok (repeat "" 2, []).
Proof.
  destruct (epan_depth_flags Samples.digits_only) as [Hlow Hhigh].
  split.
  - exact (Hlow ["epan_water_depth"; "rainfall"] []
             [("epan_water_depth", VStr "14"); ("rainfall", VNum (of_int 0))]
             (VStr "14") (of_int 14) eq_refl eq_refl eq_refl).
  - apply (Hhigh ["epan_water_depth"; "rainfall"] []
             [("epan_water_depth", VNum (of_int 15));
              ("rainfall", VNum (of_int 500))]); [reflexivity|].
    right. exists (VNum (of_int 15)). split; [reflexivity|].
    right. exists (of_int 15). split; reflexivity.
Defined.

Lemma alert_reads_only_predicate_columns_witness :
  exists alert,
    highlight_alerts Samples.digits_only "River" [] [] Samples.river_row
    = Ok (Spec.outcome alert [] Samples.river_row)
    /\ highlight_alerts Samples.digits_only "River" [] []
         [("batt_volt", VNum (FFin 10.5)); ("g1", VNum (of_int 9))]
       = Ok (Spec.outcome alert []
               [("batt_volt", VNum (FFin 10.5)); ("g1", VNum (of_int 9))]).
Proof.
  apply (alert_reads_only_predicate_columns Samples.digits_only "River" [] [] []).
  intros label fires [[= <- <-] | []]. reflexivity.
Defined.

(* ===================================================================== *)
(** * Loading the six stations                                            *)
(* ===================================================================== *)

Import Dashboard.

Lemma dict_set_fresh {V : Type} (d : list (string * V)) (key : string) (v : V) :
  ~ In key (map fst d) -> dict_set d key v = d ++ [(key, v)].
Proof.
  induction d as [|[k x] d IH]; cbn; [reflexivity|]. intros Hnot.
  destruct (String.eqb_spec k key) as [-> | _].
  - exfalso. apply Hnot. now left.
  - rewrite IH; [reflexivity|]. intros Hin. apply Hnot. now right.
Qed.

Lemma dict_find_app_fresh {V : Type} (d d' : list (string * V)) (key : string) :
  ~ In key (map fst d) -> dict_find (d ++ d') key = dict_find d' key.
Proof.
  induction d as [|[k x] d IH]; cbn; [reflexivity|]. intros Hnot.
  destruct (String.eqb_spec k key) as [-> | _].
  - exfalso. apply Hnot. now left.
  - apply IH. intros Hin. apply Hnot. now right.
Qed.

Lemma statements_app (a b : list ui_event) :
  statements (a ++ b) = statements a ++ statements b.
Proof.
  induction a as [|[[q p | line] | m | m | | n k] a IH]; cbn; now rewrite ?IH.
Qed.

(** The statements of one call of [fetch_data]: the one it built. *)
Lemma statements_of_fetch (db : store) (table_name : string)
  (start_date end_date date_column filter_column filter_value : option string) :
  statements (map Sent (snd (fetch_data db table_name start_date end_date
                               date_column filter_column filter_value)))
  = [build_query table_name start_date end_date date_column
       filter_column filter_value].
Proof.
  rewrite fetch_data_events. cbv zeta.
  destruct (build_query _ _ _ _ _ _) as [q p]. cbn [fst snd].
  now destruct (db q p).
Qed.

Section LoadingFacts.

Variable db : store.
Variable to_datetime : list value -> result (list value).

(** One station: its entry, its statement, and where an [st.error] can
    come from. *)
Lemma load_station_spec (name table : string) (all_data : list (string * DataFrame)) :
  fst (load_station db to_datetime name table all_data)
  = dict_set all_data name (loaded db to_datetime table)
  /\ statements (snd (load_station db to_datetime name table all_data))
     = [plain_read table]
  /\ (forall msg,
        In (StError msg) (snd (load_station db to_datetime name table all_data)) ->
        exists df e,
          db (fst (plain_read table)) (snd (plain_read table)) = Ok df
          /\ has_column df "timestamp" = true
          /\ to_datetime (map (cell df "timestamp") (rows df)) = Raise e).
Proof.
  unfold load_station, loaded.
  rewrite fetch_data_events. cbv zeta.
  change (build_query table None None default_date_column None None)
    with (plain_read table).
  destruct (db (fst (plain_read table)) (snd (plain_read table))) as [df | e0].
  - cbn [bind]. unfold df_getitem.
    destruct (has_column df "timestamp") eqn:Hcol; cbn [bind].
    + destruct (to_datetime (map (cell df "timestamp") (rows df))) as [t | e] eqn:Ht;
        cbn [bind fst snd].
      * split; [reflexivity | split; [reflexivity|]].
        intros msg Hin. cbn in Hin. destruct Hin as [H | []]. discriminate H.
      * split; [reflexivity | split].
        -- reflexivity.
        -- intros msg _. eauto.
    + cbn [fst snd]. split; [reflexivity | split; [reflexivity|]].
      intros msg Hin. cbn in Hin. destruct Hin as [H | []]. discriminate H.
  - cbn [bind fst snd]. split; [reflexivity | split; [reflexivity|]].
    intros msg Hin. cbn in Hin.
    destruct Hin as [H | [H | []]]; discriminate H.
Qed.

Lemma load_loop_spec (sources : list (string * string))
  (all_data : list (string * DataFrame)) :
  NoDup (map fst sources) ->
  (forall key, In key (map fst sources) -> ~ In key (map fst all_data)) ->
  fst (load_loop db to_datetime sources all_data)
  = all_data ++ map (fun source => (fst source, loaded db to_datetime (snd source)))
                  sources
  /\ statements (snd (load_loop db to_datetime sources all_data))
     = map (fun source => plain_read (snd source)) sources
  /\ (forall msg,
        In (StError msg) (snd (load_loop db to_datetime sources all_data)) ->
        exists name table df e,
          In (name, table) sources
          /\ db (fst (plain_read table)) (snd (plain_read table)) = Ok df
          /\ has_column df "timestamp" = true
          /\ to_datetime (map (cell df "timestamp") (rows df)) = Raise e).
Proof.
  revert all_data.
  induction sources as [|[name table] rest IH]; intros all_data Hnodup Hfresh.
  - cbn. rewrite app_nil_r.
    split; [reflexivity | split; [reflexivity | intros msg []]].
  - cbn [load_loop].
    destruct (load_station_spec name table all_data) as (Hfst & Hst & Herr).
    destruct (load_station db to_datetime name table all_data) as [all_data1 shown].
    cbn [fst snd] in Hfst, Hst, Herr.
    rewrite dict_set_fresh in Hfst by (apply Hfresh; now left).
    cbn [map fst] in Hnodup. apply NoDup_cons_iff in Hnodup as [Hname Hrest].
    destruct (IH all_data1) as (Hfst' & Hst' & Herr').
    + exact Hrest.
    + intros key Hkey Hin. rewrite Hfst, map_app, in_app_iff in Hin.
      destruct Hin as [Hin | [<- | []]].
      * apply (Hfresh key); [now right | assumption].
      * contradiction.
    + destruct (load_loop db to_datetime rest all_data1) as [all_data2 shown'].
      cbn [fst snd] in *. split; [|split].
      * rewrite Hfst', Hfst, <- app_assoc. reflexivity.
      * rewrite statements_app, Hst, Hst'. reflexivity.
      * intros msg Hin. apply in_app_iff in Hin as [Hin | Hin].
        -- destruct (Herr msg Hin) as (df & e & H). exists name, table, df, e.
           split; [now left | exact H].
        -- destruct (Herr' msg Hin) as (n & t & df & e & Hsrc & H).
           exists n, t, df, e. split; [now right | exact H].
Qed.

Lemma data_sources_distinct : NoDup (map fst data_sources).
Proof. cbn. repeat constructor; cbn; intuition discriminate. Qed.

Lemma load_all_data_spec :
  fst (load_all_data db to_datetime)
  = map (fun source => (fst source, loaded db to_datetime (snd source))) data_sources
  /\ statements (snd (load_all_data db to_datetime))
     = map (fun source => plain_read (snd source)) data_sources.
Proof.
  destruct (load_loop_spec data_sources [] data_sources_distinct) as (H1 & H2 & _).
  - intros key _ [].
  - split; assumption.
Qed.

(** X11.  [load_all_data] keeps an entry for each of the six stations, in
    the order of [data_sources], whatever the store answers and whatever
    the conversion of the timestamps does: the count of active stations on
    the page is always six.  It sends six statements, one plain read for
    each table, in that order, with no bound parameter. *)
Theorem six_stations_always_loaded :
  map fst (fst (load_all_data db to_datetime))
  = ["River"; "Dam"; "EPAN"; "AWS"; "ARS"; "Gate"]
  /\ active_stations (fst (load_all_data db to_datetime)) = 6%nat
  /\ statements (snd (load_all_data db to_datetime))
     = map (fun source => plain_read (snd source)) data_sources.
Proof.
  destruct load_all_data_spec as [Hfst Hst]. unfold active_stations.
  rewrite Hfst, Hst. repeat split.
Qed.

Lemma dict_find_loaded (sources : list (string * string)) (name table : string) :
  NoDup (map fst sources) ->
  In (name, table) sources ->
  dict_find (map (fun source => (fst source, loaded db to_datetime (snd source)))
               sources) name
  = Some (loaded db to_datetime table).
Proof.
  induction sources as [|[n t] rest IH]; intros Hnodup Hin; [contradiction|].
  inversion Hnodup as [|? ? Hn Hrest]; subst. cbn.
  destruct Hin as [[= -> ->] | Hin].
  - now rewrite String.eqb_refl.
  - destruct (String.eqb_spec n name) as [-> | _]; [|now apply IH].
    exfalso. apply Hn. apply in_map_iff. now exists (name, table).
Qed.

(** X12.  What a station shows depends on its own table alone.  Its entry
    is the empty frame when the store fails on its table or when the
    conversion of its timestamps fails; it is the answer of the store when
    that has no [timestamp] column, and the answer with that column
    converted otherwise. *)
Theorem station_entry_from_own_table (name table : string) :
  In (name, table) data_sources ->
  (forall e,
      db (fst (plain_read table)) (snd (plain_read table)) = Raise e ->
      dict_find (fst (load_all_data db to_datetime)) name = Some empty_frame)
  /\ (forall df,
      db (fst (plain_read table)) (snd (plain_read table)) = Ok df ->
      has_column df "timestamp" = false ->
      dict_find (fst (load_all_data db to_datetime)) name = Some df)
  /\ (forall df t,
      db (fst (plain_read table)) (snd (plain_read table)) = Ok df ->
      has_column df "timestamp" = true ->
      to_datetime (map (cell df "timestamp") (rows df)) = Ok t ->
      dict_find (fst (load_all_data db to_datetime)) name
      = Some (df_setitem df "timestamp" t))
  /\ (forall df e,
      db (fst (plain_read table)) (snd (plain_read table)) = Ok df ->
      has_column df "timestamp" = true ->
      to_datetime (map (cell df "timestamp") (rows df)) = Raise e ->
      dict_find (fst (load_all_data db to_datetime)) name = Some empty_frame).
Proof.
  intros Hin. destruct load_all_data_spec as [-> _].
  rewrite (dict_find_loaded data_sources name table data_sources_distinct Hin).
  unfold loaded. repeat split.
  - intros e ->. reflexivity.
  - intros df -> ->. reflexivity.
  - intros df t -> -> ->. reflexivity.
  - intros df e -> -> ->. reflexivity.
Qed.

(** X13.  A failure of the store never reaches the page as an error:
    [st.error] is shown only for a station whose table was read and whose
    timestamps could not be converted.  With the store down every station
    gets the empty frame, the page counts six active stations and zero
    records, and shows no error. *)
Theorem store_failure_is_shown_as_no_data :
  (forall msg,
      In (StError msg) (snd (load_all_data db to_datetime)) ->
      exists name table df e,
        In (name, table) data_sources
        /\ db (fst (plain_read table)) (snd (plain_read table)) = Ok df
        /\ has_column df "timestamp" = true
        /\ to_datetime (map (cell df "timestamp") (rows df)) = Raise e)
  /\ ((forall query bound, exists e, db query bound = Raise e) ->
      fst (load_all_data db to_datetime)
      = map (fun source => (fst source, empty_frame)) data_sources
      /\ active_stations (fst (load_all_data db to_datetime)) = 6%nat
      /\ total_records (fst (load_all_data db to_datetime)) = 0%nat
      /\ forall msg, ~ In (StError msg) (snd (load_all_data db to_datetime))).
Proof.
  assert (Herr : forall msg,
      In (StError msg) (snd (load_all_data db to_datetime)) ->
      exists name table df e,
        In (name, table) data_sources
        /\ db (fst (plain_read table)) (snd (plain_read table)) = Ok df
        /\ has_column df "timestamp" = true
        /\ to_datetime (map (cell df "timestamp") (rows df)) = Raise e).
  { destruct (load_loop_spec data_sources [] data_sources_distinct) as (_ & _ & H).
    - intros key _ [].
    - exact H. }
  split; [exact Herr|]. intros Hdown.
  assert (Hempty : forall table, loaded db to_datetime table = empty_frame).
  { intros table. unfold loaded.
    destruct (Hdown (fst (plain_read table)) (snd (plain_read table))) as [e ->].
    reflexivity. }
  destruct load_all_data_spec as [Hfst _].
  assert (Hall : fst (load_all_data db to_datetime)
                 = map (fun source => (fst source, empty_frame)) data_sources).
  { rewrite Hfst. apply map_ext. intros source. now rewrite Hempty. }
  split; [exact Hall|]. rewrite Hall. repeat split.
  intros msg Hin. destruct (Herr msg Hin) as (n & t & df & e & _ & Hdb & _).
  destruct (Hdown (fst (plain_read t)) (snd (plain_read t))) as [e' He'].
  rewrite He' in Hdb. discriminate Hdb.
Qed.

End LoadingFacts.

Lemma series_get_set_cell (cols : list string) (label : string) (v : value)
  (r : list value) (c : string) :
  c <> label ->
  series_get (combine cols (set_cell cols label v r)) c
  = series_get (combine cols r) c.
Proof.
  intros Hc. revert r. induction cols as [|c0 cols IH]; intros r; [reflexivity|].
  destruct r as [|x r]; [reflexivity|]. cbn [set_cell].
  destruct (String.eqb_spec c0 label) as [-> | Hneq]; cbn [combine series_get].
  - destruct (String.eqb_spec label c) as [<- | _]; [contradiction | reflexivity].
  - now rewrite IH.
Qed.

Lemma nth_error_assign (cols : list string) (label : string)
  (rs : list (list value)) (series : list value) (i : nat) (r : list value) :
  nth_error rs i = Some r ->
  exists v, nth_error (assign cols label rs series) i
            = Some (set_cell cols label v r).
Proof.
  revert series i. induction rs as [|r0 rs IH]; intros series i Hi.
  - destruct i; discriminate Hi.
  - destruct i as [|i]; cbn in Hi.
    + injection Hi as ->. destruct series; cbn; eauto.
    + destruct series as [|v series]; cbn; now apply IH.
Qed.

Lemma length_assign (cols : list string) (label : string)
  (rs : list (list value)) (series : list value) :
  List.length (assign cols label rs series) = List.length rs.
Proof.
  revert series. induction rs as [|r rs IH]; intros series; [reflexivity|].
  destruct series; cbn; now rewrite IH.
Qed.

Lemma df_setitem_keeps (df : DataFrame) (label : string) (series : list value) :
  columns (df_setitem df label series) = columns df
  /\ df_len (df_setitem df label series) = df_len df
  /\ same_cells (fun c => c <> label) df (df_setitem df label series).
Proof.
  split; [reflexivity | split].
  - unfold df_len. cbn. apply length_assign.
  - intros i r Hi.
    destruct (nth_error_assign (columns df) label (rows df) series i r Hi)
      as [v Hv].
    exists (set_cell (columns df) label v r). split; [exact Hv|].
    intros c Hc. unfold cell, as_series. cbn [columns df_setitem].
    now rewrite series_get_set_cell.
Qed.

(** X14.  Converting the timestamps touches nothing else: a station whose
    table was read, and whose timestamps were converted or absent, is kept
    with the columns and the number of rows the store gave, and row by row
    every cell outside [timestamp] is the cell of the store. *)
Theorem loading_changes_only_timestamps (db : store)
  (to_datetime : list value -> result (list value))
  (name table : string) (df : DataFrame) :
  In (name, table) data_sources ->
  db (fst (plain_read table)) (snd (plain_read table)) = Ok df ->
  has_column df "timestamp" = false
  \/ (exists t, to_datetime (map (cell df "timestamp") (rows df)) = Ok t) ->
  exists df',
    dict_find (fst (load_all_data db to_datetime)) name = Some df'
    /\ columns df' = columns df
    /\ df_len df' = df_len df
    /\ same_cells (fun c => c <> "timestamp") df df'.
Proof.
  intros Hin Hdb Hconv.
  destruct (load_all_data_spec db to_datetime) as [-> _].
  rewrite (dict_find_loaded db to_datetime data_sources name table
             data_sources_distinct Hin).
  unfold loaded. rewrite Hdb.
  assert (Hsame : same_cells (fun c => c <> "timestamp") df df).
  { intros i r Hi. exists r. split; [exact Hi | reflexivity]. }
  destruct (has_column df "timestamp") eqn:Hcol.
  - destruct Hconv as [Hno | [t Ht]]; [discriminate Hno|]. rewrite Ht.
    eexists. split; [reflexivity|]. apply df_setitem_keeps.
  - exists df. auto.
Qed.

(* ===================================================================== *)
(** * The station dashboards                                              *)
(* ===================================================================== *)

Section StationFacts.

Variable str_to_float : string -> option pyfloat.
Variable value_str : value -> string.

Local Abbreviation row_alert := (Spec.row_alert str_to_float).

Lemma style_rows_spec (station_name : string) (cols : list string)
  (series : list Series) (alert_rows : list Series) :
  style_rows str_to_float station_name cols series alert_rows
  = Ok (map (fun row => fst (Spec.outcome (row_alert station_name cols row) [] row))
          series,
        alert_rows ++ filter (row_alert station_name cols) series).
Proof.
  revert alert_rows. induction series as [|row rest IH]; intros alert_rows.
  - cbn. now rewrite app_nil_r.
  - cbn [style_rows]. rewrite highlight_alerts_refines. cbn [bind].
    rewrite IH. cbn [bind map filter fst snd].
    destruct (row_alert station_name cols row); cbn [Spec.outcome fst snd].
    + now rewrite <- app_assoc.
    + reflexivity.
Qed.

(** X15.  The alerts under a station table are the flagged rows of that
    table, each once, top to bottom: [alert_rows] holds exactly the rows
    for which a predicate of the station fires, so the count shown is at
    most the number of rows, and "no alerts" is shown exactly when no row
    is flagged.  Every row gets its list of styles. *)
Theorem alerts_are_the_flagged_rows (station_name : string) (daily_df : DataFrame) :
  exists shown,
    station_alerts str_to_float station_name daily_df
    = Ok (shown,
          filter (row_alert station_name (columns daily_df))
            (map (as_series daily_df) (rows daily_df)))
    /\ List.length shown = df_len daily_df
    /\ (List.length (filter (row_alert station_name (columns daily_df))
                       (map (as_series daily_df) (rows daily_df)))
        <= df_len daily_df)%nat.
Proof.
  unfold station_alerts. rewrite style_rows_spec. cbn [app].
  eexists. split; [reflexivity | split].
  - unfold df_len. now rewrite !length_map.
  - unfold df_len. etransitivity; [apply filter_length_le|]. now rewrite length_map.
Qed.

Lemma mask_is_filter (df : DataFrame) (p : list value -> bool) :
  rows (df_mask df (map p (rows df))) = filter p (rows df).
Proof. cbn. apply select_map. Qed.

(** X16.  A station without a [project_name] column is shown only by the
    grace of the station before it.  Its frame has rows and dates but the
    select box is not drawn, so [selected_project] is what the last station left:
    not bound, and the page stops on a NameError; bound to a project, and
    it stops on a KeyError; bound to "All Projects", and the rows of the
    day are shown. *)
Theorem project_choice_leaks_between_stations (df : DataFrame)
  (selected_date_str choice : string) :
  df_empty df = false ->
  has_column df "project_name" = false ->
  has_column df "data_date" = true ->
  daily_frame value_str df selected_date_str None choice
  = inl (NameError "selected_project")
  /\ (forall project,
         project <> "All Projects" ->
         daily_frame value_str df selected_date_str (Some project) choice
         = inl (Uncaught (KeyError "project_name")))
  /\ exists daily_df,
       daily_frame value_str df selected_date_str (Some "All Projects") choice
       = inr (daily_df, Some "All Projects")
       /\ columns daily_df = columns df
       /\ rows daily_df
          = filter (fun r => String.eqb (value_str (cell df "data_date" r))
                               selected_date_str)
              (rows df).
Proof.
  intros _ Hproj Hdate. unfold daily_frame. rewrite Hproj, Hdate.
  split; [reflexivity | split].
  - intros project Hneq.
    destruct (String.eqb_spec project "All Projects") as [-> | _];
      [contradiction|]. cbn [negb].
    unfold df_getitem, has_column in *. cbn [df_mask columns].
    now rewrite Hproj.
  - eexists. split; [reflexivity | split; [reflexivity | apply mask_is_filter]].
Qed.

(** X17.  No alert for another day or another project: when the frame of
    the day is built, every row in [alert_rows] is a row of the station's
    frame whose date reads as the date selected, on which a predicate of
    the station fires; and when the select box is drawn and a project is
    chosen, its [project_name] is that project. *)
Theorem alerts_belong_to_the_day (station_name : string) (df daily_df : DataFrame)
  (selected_date_str choice : string) (selected_project after : option string)
  (shown : list (list string)) (alert_rows : list Series) :
  daily_frame value_str df selected_date_str selected_project choice
  = inr (daily_df, after) ->
  station_alerts str_to_float station_name daily_df = Ok (shown, alert_rows) ->
  forall row, In row alert_rows ->
    exists r,
      In r (rows df)
      /\ row = as_series df r
      /\ value_str (cell df "data_date" r) = selected_date_str
      /\ row_alert station_name (columns df) row = true
      /\ (has_column df "project_name" = true ->
          choice <> "All Projects" ->
          cell df "project_name" r = VStr choice).
Proof.
  intros Hdaily Halerts row Hrow.
  unfold station_alerts in Halerts. rewrite style_rows_spec in Halerts.
  cbn [app] in Halerts. injection Halerts as _ <-.
  apply filter_In in Hrow as [Hrow Hfire].
  apply in_map_iff in Hrow as (r & <- & Hr).
  unfold daily_frame in Hdaily.
  destruct (has_column df "data_date") eqn:Hdate;
    [|injection Hdaily as <- _; contradiction].
  set (on_day := fun r => String.eqb (value_str (cell df "data_date" r))
                            selected_date_str) in *.
  assert (Hday : forall x, In x (filter on_day (rows df)) ->
                           In x (rows df)
                           /\ value_str (cell df "data_date" x) = selected_date_str).
  { intros x Hx. apply filter_In in Hx as [Hx Hd]. split; [exact Hx|].
    now apply String.eqb_eq. }
  destruct (has_column df "project_name") eqn:Hproj.
  - destruct (String.eqb_spec choice "All Projects") as [-> | Hneq]; cbn [negb] in Hdaily.
    + injection Hdaily as <- _. rewrite mask_is_filter in Hr.
      destruct (Hday r Hr) as [Hin Hd].
      exists r. repeat split; try assumption. intros _ H. contradiction.
    + unfold df_getitem in Hdaily.
      replace (has_column (df_mask df (map on_day (rows df))) "project_name")
        with true in Hdaily by (symmetry; exact Hproj).
      injection Hdaily as <- _.
      cbn [df_mask rows columns] in Hr. rewrite select_map in Hr.
      rewrite map_map, select_map in Hr.
      apply filter_In in Hr as [Hr Hp].
      destruct (Hday r Hr) as [Hin Hd].
      exists r. repeat split; try assumption.
      intros _ _. unfold cell, as_series in *. cbn [df_mask columns] in Hp.
      destruct (series_get (combine (columns df) r) "project_name") as [[| | s |]|];
        try discriminate Hp.
      cbn in Hp. apply String.eqb_eq in Hp. now subst.
  - destruct selected_project as [project|]; [|discriminate Hdaily].
    destruct (String.eqb_spec project "All Projects") as [-> | Hneq]; cbn [negb] in Hdaily.
    + injection Hdaily as <- _. rewrite mask_is_filter in Hr.
      destruct (Hday r Hr) as [Hin Hd].
      exists r. repeat split; try assumption. intros H. discriminate H.
    + unfold df_getitem in Hdaily.
      replace (has_column (df_mask df (map on_day (rows df))) "project_name")
        with false in Hdaily by (symmetry; exact Hproj).
      discriminate Hdaily.
Qed.

End StationFacts.

(* ===================================================================== *)
(** * The historical explorer                                             *)
(* ===================================================================== *)

Lemma has_column_In (df : DataFrame) (column : string) :
  has_column df column = true <-> In column (columns df).
Proof.
  unfold has_column. rewrite existsb_exists. split.
  - intros (x & Hx & Heq). apply String.eqb_eq in Heq. now subst.
  - intros Hin. exists column. split; [assumption | apply String.eqb_refl].
Qed.

Lemma find_nothing {A : Type} (f : A -> bool) (l : list A) :
  (forall x, In x l -> f x = false) -> find f l = None.
Proof.
  induction l as [|x l IH]; cbn; [reflexivity|]. intros H.
  rewrite (H x (or_introl eq_refl)). apply IH. intros y Hy. apply H. now right.
Qed.

Lemma series_get_combine_map (f : string -> value) (labels : list string)
  (c : string) :
  In c labels -> series_get (combine labels (map f labels)) c = Some (f c).
Proof.
  induction labels as [|l labels IH]; [contradiction|]. intros Hin. cbn.
  destruct (String.eqb_spec l c) as [-> | Hneq]; [reflexivity|].
  destruct Hin as [-> | Hin]; [contradiction | now apply IH].
Qed.

Lemma df_select_present (df : DataFrame) (labels : list string) :
  (forall l, In l labels -> In l (columns df)) ->
  df_select df labels
  = Ok (mkDataFrame labels
          (map (fun r => map (fun label => cell df label r) labels) (rows df))).
Proof.
  intros Hall. unfold df_select. rewrite find_nothing; [reflexivity|].
  intros l Hl. apply negb_false_iff, has_column_In. now apply Hall.
Qed.

(** X18.  Choosing a parameter in the historical explorer reorders the
    columns and changes nothing else: for a frame with distinct columns
    that has [data_date] and the parameter, the columns shown are a
    permutation of the columns read, [data_date] first and the parameter
    second; the rows are as many, and row by row every cell is the cell
    read. *)
Theorem parameter_choice_only_reorders (hist_df : DataFrame) (param : string) :
  NoDup (columns hist_df) ->
  has_column hist_df "data_date" = true ->
  has_column hist_df param = true ->
  param <> "data_date" ->
  param <> "All Parameters" ->
  exists shown others,
    order_for_parameter hist_df param = Ok (shown, [])
    /\ columns shown = "data_date" :: param :: others
    /\ Permutation (columns hist_df) (columns shown)
    /\ df_len shown = df_len hist_df
    /\ same_cells (fun c => In c (columns hist_df)) hist_df shown.
Proof.
  intros Hnodup Hdate Hparam Hneq Hall.
  apply has_column_In in Hdate. apply has_column_In in Hparam as Hparam'.
  set (others := filter (fun col => negb (existsb (String.eqb col) ["data_date"; param]))
                   (columns hist_df)).
  assert (Hothers : forall x, In x others
                    <-> In x (columns hist_df) /\ x <> "data_date" /\ x <> param).
  { intros x. unfold others. rewrite filter_In. cbn [existsb].
    rewrite orb_false_r, negb_true_iff, orb_false_iff.
    split; intros [Hin [H1 H2]]; (split; [assumption|]); split.
    - now apply String.eqb_neq.
    - now apply String.eqb_neq.
    - now apply String.eqb_neq.
    - now apply String.eqb_neq. }
  assert (Hin : forall x, In x ("data_date" :: param :: others)
                          <-> In x (columns hist_df)).
  { intros x. cbn [In]. rewrite Hothers. split.
    - intros [<- | [<- | [H _]]]; assumption.
    - intros Hx. destruct (string_dec "data_date" x) as [-> | H1]; [now left|].
      destruct (string_dec param x) as [-> | H2]; [right; now left|].
      right. right. repeat split; congruence. }
  exists (mkDataFrame ("data_date" :: param :: others)
            (map (fun r => map (fun label => cell hist_df label r)
                             ("data_date" :: param :: others))
               (rows hist_df))), others.
  split; [|split; [reflexivity | split; [|split]]].
  - unfold order_for_parameter.
    destruct (String.eqb_spec param "All Parameters") as [-> | _];
      [contradiction|]. cbn [negb]. rewrite Hparam. fold others.
    change (["data_date"; param] ++ others) with ("data_date" :: param :: others).
    rewrite df_select_present; [reflexivity|]. intros l Hl. now apply Hin.
  - cbn [columns]. apply NoDup_Permutation; [assumption| |].
    + constructor; [|constructor].
      * intros [H | H]; [congruence|]. apply Hothers in H. tauto.
      * intros H. apply Hothers in H. tauto.
      * apply NoDup_filter. assumption.
    + intros x. symmetry. apply Hin.
  - unfold df_len. cbn [rows]. apply length_map.
  - intros i r Hi. eexists. split.
    + cbn [rows]. apply map_nth_error. exact Hi.
    + intros c Hc. unfold cell at 1, as_series. cbn [columns].
      rewrite series_get_combine_map; [reflexivity|]. now apply Hin.
Qed.

(** X19.  The historical explorer sends one statement, with both dates
    bound.  When the store fails the page says that no data was found: the
    failure is not shown as an error.  When the frame read has the
    parameter but no [data_date], the reordering raises and the page shows
    an error instead of a table. *)
Theorem historical_failures (db : store)
  (to_datetime : list value -> result (list value))
  (table param hist_start hist_end : string) :
  hist_start <> "" ->
  hist_end <> "" ->
  statements (snd (load_historical db to_datetime table param hist_start hist_end))
  = [range_read hist_start hist_end table]
  /\ (forall e,
        db (fst (range_read hist_start hist_end table))
           (snd (range_read hist_start hist_end table)) = Raise e ->
        load_historical db to_datetime table param hist_start hist_end
        = (None,
           [Sent (ReadSql (fst (range_read hist_start hist_end table))
                          (snd (range_read hist_start hist_end table)));
            Sent (Print ("Database error: " ++ exn_str e)%string);
            StWarning "No historical data found for selected parameters"]))
  /\ (forall df,
        db (fst (range_read hist_start hist_end table))
           (snd (range_read hist_start hist_end table)) = Ok df ->
        df_empty df = false ->
        has_column df "data_date" = false ->
        has_column df param = true ->
        param <> "All Parameters" ->
        exists msg,
          load_historical db to_datetime table param hist_start hist_end
          = (None,
             [Sent (ReadSql (fst (range_read hist_start hist_end table))
                            (snd (range_read hist_start hist_end table)));
              StError msg])).
Proof.
  intros Hs He.
  assert (Hq : build_query table (Some hist_start) (Some hist_end)
                 (Some "data_date") None None
               = range_read hist_start hist_end table).
  { unfold build_query, range_read. rewrite !truthy_nonempty by assumption.
    cbn. now rewrite !string_app_assoc. }
  unfold load_historical. rewrite fetch_data_events. cbv zeta. rewrite Hq.
  destruct (db (fst (range_read hist_start hist_end table))
               (snd (range_read hist_start hist_end table))) as [df | e0] eqn:Hdb.
  - split; [|split].
    + cbn [bind]. destruct (negb (df_empty df)); cbn [bind].
      * destruct (has_column df "data_date"); cbn [bind].
        -- destruct (df_getitem df "data_date") as [s | e1]; cbn [bind];
             [|rewrite ?statements_app; reflexivity].
           destruct (to_datetime s) as [t | e1]; cbn [bind];
             [|rewrite ?statements_app; reflexivity].
           unfold order_for_parameter.
           destruct (negb (String.eqb param "All Parameters"));
             [destruct (has_column (df_setitem df "data_date" t) param) |];
             try (destruct (df_select _ _)); cbn [bind fst snd];
             rewrite ?statements_app; reflexivity.
        -- unfold order_for_parameter.
           destruct (negb (String.eqb param "All Parameters"));
             [destruct (has_column df param) |];
             try (destruct (df_select _ _)); cbn [bind fst snd];
             rewrite ?statements_app; reflexivity.
      * rewrite ?statements_app. reflexivity.
    + intros e H. discriminate H.
    + intros df0 [= <-] Hne Hdate Hparam Hall.
      cbn [bind]. rewrite Hne, Hdate. cbn [negb bind].
      unfold order_for_parameter.
      destruct (String.eqb_spec param "All Parameters") as [-> | _];
        [contradiction|]. cbn [negb]. rewrite Hparam.
      unfold df_select. cbn [app find]. rewrite Hdate. cbn [negb bind].
      eexists. reflexivity.
  - split; [|split].
    + cbn [bind]. reflexivity.
    + intros e [= <-]. reflexivity.
    + intros df H. discriminate H.
Qed.

(* ===================================================================== *)
(** * The advanced search                                                 *)
(* ===================================================================== *)

Lemma lstrip_blank (s : string) : all_space s = true -> lstrip s = "".
Proof.
  induction s as [|c s IH]; cbn; [reflexivity|]. intros H.
  apply andb_true_iff in H as [-> H]. now apply IH.
Qed.

Lemma lstrip_not_blank (s : string) :
  all_space s = false ->
  exists c rest, lstrip s = String c rest /\ is_space c = false.
Proof.
  induction s as [|c s IH]; cbn; [discriminate|]. intros H.
  destruct (is_space c) eqn:Hc; cbn in H; [now apply IH | eauto].
Qed.

Lemma rstrip_keeps_head (c : ascii) (rest : string) :
  is_space c = false -> rstrip (String c rest) <> "".
Proof.
  intros Hc. cbn. rewrite Hc. destruct (rstrip rest); discriminate.
Qed.

Lemma strip_blank_iff (s : string) : strip s = "" <-> all_space s = true.
Proof.
  unfold strip. split.
  - intros H. destruct (all_space s) eqn:Hs; [reflexivity|].
    destruct (lstrip_not_blank s Hs) as (c & rest & Hl & Hc).
    rewrite Hl in H. now apply rstrip_keeps_head in H.
  - intros H. now rewrite lstrip_blank.
Qed.

Section SearchFacts.

Variable db : store.
Variable value_str : value -> string.

(** X20.  A search value that is empty or all whitespace asks nothing of
    the store: the page warns, no statement is sent, and nothing is
    found. *)
Theorem blank_search_sends_nothing
  (search_type search_value start_date end_date : string) :
  all_space search_value = true ->
  advanced_search db value_str search_type search_value start_date end_date
  = ([], 0%nat, [StWarning "Please enter/select a search value"])
  /\ statements
       (snd (advanced_search db value_str search_type search_value
               start_date end_date)) = [].
Proof.
  intros Hblank. unfold advanced_search.
  rewrite (proj2 (strip_blank_iff search_value) Hblank). split; reflexivity.
Qed.

Lemma search_station_statements (name table : string)
  (search_type search_value start_date end_date : string)
  (results : list (string * DataFrame)) (total : nat) :
  statements (snd (search_station db value_str name table search_type
                     search_value start_date end_date results total))
  = [build_query table (Some start_date) (Some end_date) (Some "data_date")
       (Some (spaces_to_underscores (lower search_type)))
       (Some (strip search_value))].
Proof.
  unfold search_station.
  pose proof (statements_of_fetch db table (Some start_date) (Some end_date)
                (Some "data_date")
                (Some (spaces_to_underscores (lower search_type)))
                (Some (strip search_value))) as Hst.
  destruct (fetch_data db table _ _ _ _ _) as [[df | e] sent]; cbn [snd] in *.
  - destruct (negb (df_empty df)); exact Hst.
  - cbn [snd]. rewrite statements_app, Hst. reflexivity.
Qed.

Lemma search_loop_statements (stations : list (string * string))
  (search_type search_value start_date end_date : string)
  (results : list (string * DataFrame)) (total : nat) :
  statements (snd (search_loop db value_str stations search_type search_value
                     start_date end_date results total))
  = map (fun station =>
           build_query (snd station) (Some start_date) (Some end_date)
             (Some "data_date")
             (Some (spaces_to_underscores (lower search_type)))
             (Some (strip search_value)))
        stations.
Proof.
  revert results total.
  induction stations as [|[name table] rest IH]; intros results total;
    [reflexivity|].
  cbn [search_loop map snd].
  pose proof (search_station_statements name table search_type search_value
                start_date end_date results total) as Hst.
  destruct (search_station db value_str name table search_type search_value
              start_date end_date results total) as [[results1 total1] shown].
  specialize (IH results1 total1).
  destruct (search_loop db value_str rest search_type search_value
              start_date end_date results1 total1) as [[results2 total2] shown'].
  cbn [snd] in *. now rewrite statements_app, Hst, IH.
Qed.

(** X21.  What the user types never becomes SQL.  For a search by Location
    ID or by Project Name with a value in ASCII that is not blank, the page
    sends six statements, one for each table in the order of [data_sources]; the
    text of each names the table and the column [location_id] or
    [project_name] and nothing of the value, which travels stripped as the
    bound parameter [filter_value], next to the two dates. *)
Theorem search_value_is_bound
  (search_type search_value start_date end_date : string) :
  In search_type ["Location ID"; "Project Name"] ->
  ascii_text search_value = true ->
  all_space search_value = false ->
  start_date <> "" ->
  end_date <> "" ->
  In (spaces_to_underscores (lower search_type)) ["location_id"; "project_name"]
  /\ statements
       (snd (advanced_search db value_str search_type search_value
               start_date end_date))
     = map (fun station =>
              search_read (spaces_to_underscores (lower search_type))
                (strip search_value) start_date end_date (snd station))
           data_sources.
Proof.
  intros Htype _ Hvalue Hs He.
  assert (Hcol : In (spaces_to_underscores (lower search_type))
                    ["location_id"; "project_name"]).
  { destruct Htype as [<- | [<- | []]]; cbn; auto. }
  split; [exact Hcol|].
  unfold advanced_search.
  destruct (strip search_value) as [|c kept] eqn:Hstrip.
  { apply strip_blank_iff in Hstrip. congruence. }
  cbn [truthy negb]. rewrite <- Hstrip.
  pose proof (search_loop_statements data_sources search_type search_value
                start_date end_date [] 0%nat) as Hst.
  destruct (search_loop db value_str data_sources search_type search_value
              start_date end_date [] 0%nat) as [[results total] shown].
  cbn [snd] in *. rewrite statements_app, Hst.
  assert (Htail : forall e : ui_event,
             match e with Sent _ => False | _ => True end ->
             statements [e] = []).
  { intros [[q p | l] | m | m | | n k]; cbn; tauto. }
  rewrite Htail by (destruct results; exact I). rewrite app_nil_r.
  apply map_ext. intros [name table]. cbn [snd].
  unfold build_query, search_read. rewrite !truthy_nonempty by assumption.
  destruct Hcol as [<- | [<- | []]]; cbn; now rewrite !string_app_assoc.
Qed.

Lemma total_records_app (a b : list (string * DataFrame)) :
  total_records (a ++ b) = (total_records a + total_records b)%nat.
Proof. unfold total_records. now rewrite map_app, list_sum_app. Qed.

Lemma not_empty_has_rows (df : DataFrame) :
  df_empty df = false -> (1 <= df_len df)%nat.
Proof.
  unfold df_empty, df_len. intros H. apply orb_false_iff in H as [_ H].
  apply Nat.eqb_neq in H. lia.
Qed.

Lemma search_loop_banner (stations : list (string * string))
  (search_type search_value start_date end_date : string)
  (results : list (string * DataFrame)) (total : nat) :
  NoDup (map fst stations) ->
  (forall key, In key (map fst stations) -> ~ In key (map fst results)) ->
  banner_holds results total ->
  let out := search_loop db value_str stations search_type search_value
               start_date end_date results total in
  banner_holds (fst (fst out)) (snd (fst out))
  /\ incl (map fst (fst (fst out))) (map fst results ++ map fst stations).
Proof.
  cbv zeta. revert results total.
  induction stations as [|[name table] rest IH];
    intros results total Hnodup Hfresh Hinv.
  - cbn. split; [assumption|]. rewrite app_nil_r. apply incl_refl.
  - cbn [map fst] in Hnodup. apply NoDup_cons_iff in Hnodup as [Hname Hrest].
    cbn [search_loop].
    assert (Hstep : exists results1 total1 shown,
               search_station db value_str name table search_type search_value
                 start_date end_date results total = (results1, total1, shown)
               /\ banner_holds results1 total1
               /\ incl (map fst results1) (map fst results ++ [name])).
    { unfold search_station.
      destruct (fetch_data db table _ _ _ _ _) as [[df | e] sent].
      - destruct (df_empty df) eqn:Hempty; cbn [negb].
        + do 3 eexists. split; [reflexivity|]. split; [assumption|].
          apply incl_appl, incl_refl.
        + do 3 eexists. split; [reflexivity|].
          rewrite dict_set_fresh by (apply Hfresh; now left).
          destruct Hinv as [Htotal Hrows]. split; [split|].
          * rewrite total_records_app, Htotal. unfold total_records. cbn. lia.
          * apply Forall_app. split; [assumption|]. constructor; [|constructor].
            cbn [snd]. apply not_empty_has_rows in Hempty.
            unfold astype_str, df_len in *. cbn [rows]. now rewrite length_map.
          * rewrite map_app. apply incl_refl.
      - do 3 eexists. split; [reflexivity|]. split; [assumption|].
        apply incl_appl, incl_refl. }
    destruct Hstep as (results1 & total1 & shown & -> & Hinv1 & Hkeys1).
    specialize (IH results1 total1 Hrest).
    destruct (search_loop db value_str rest search_type search_value
                start_date end_date results1 total1) as [[results2 total2] shown'].
    cbn [fst snd] in *.
    destruct IH as [Hinv2 Hkeys2]; [|assumption|].
    + intros key Hkey Hin. apply Hkeys1 in Hin. apply in_app_iff in Hin.
      destruct Hin as [Hin | [<- | []]].
      * apply (Hfresh key); [now right | assumption].
      * apply Hname. assumption.
    + split; [assumption|]. intros key Hin. apply Hkeys2 in Hin.
      apply in_app_iff in Hin as [Hin | Hin].
      * apply Hkeys1 in Hin. apply in_app_iff in Hin as [Hin | [<- | []]].
        -- apply in_app_iff. now left.
        -- apply in_app_iff. right. now left.
      * apply in_app_iff. right. now right.
Qed.

(** X22.  The banner of the search adds up: the number of records it
    gives is the sum of the rows of the frames listed, every frame listed
    has a row and belongs to one of the six stations, so there are no more
    sources than records, and nothing is found exactly when the total is
    zero. *)
Theorem search_banner_adds_up
  (search_type search_value start_date end_date : string) :
  let out := advanced_search db value_str search_type search_value
               start_date end_date in
  snd (fst out) = total_records (fst (fst out))
  /\ Forall (fun entry => (1 <= df_len (snd entry))%nat) (fst (fst out))
  /\ incl (map fst (fst (fst out))) (map fst data_sources)
  /\ (List.length (fst (fst out)) <= snd (fst out))%nat
  /\ (fst (fst out) = [] <-> snd (fst out) = 0%nat).
Proof.
  cbv zeta.
  assert (Hgoal : forall results total,
             banner_holds results total ->
             incl (map fst results) (map fst data_sources) ->
             total = total_records results
             /\ Forall (fun entry => (1 <= df_len (snd entry))%nat) results
             /\ incl (map fst results) (map fst data_sources)
             /\ (List.length results <= total)%nat
             /\ (results = [] <-> total = 0%nat)).
  { intros results total [Htotal Hrows] Hkeys.
    assert (Hlen : (List.length results <= total)%nat).
    { subst total. clear Hkeys. unfold total_records.
      induction Hrows as [|entry l Hentry _ IH]; [cbn; lia|].
      unfold list_sum, df_len in *. cbn [map fold_right List.length]. lia. }
    repeat split; try assumption.
    - intros ->. subst total. reflexivity.
    - intros ->. destruct results; [reflexivity | cbn in Hlen; lia]. }
  unfold advanced_search.
  destruct (negb (truthy (Some (strip search_value)))).
  - cbn [fst snd]. apply Hgoal; [split; [reflexivity | constructor]|].
    intros key [].
  - pose proof (search_loop_banner data_sources search_type search_value
                  start_date end_date [] 0%nat (data_sources_distinct)) as Hloop.
    cbv zeta in Hloop.
    destruct (search_loop db value_str data_sources search_type search_value
                start_date end_date [] 0%nat) as [[results total] shown].
    cbn [fst snd] in *.
    destruct Hloop as [Hinv Hkeys].
    + intros key _ [].
    + split; [reflexivity | constructor].
    + apply Hgoal; assumption.
Qed.

End SearchFacts.

(* ===================================================================== *)
(** * More instances                                                      *)
(* ===================================================================== *)

Lemma messages_follow_the_rules_witness :
  check_rules Samples.river_frame "river_data" MoreSamples.river_rules []
  = Ok ["Constraint violation in river_data for column 'water_level': Values outside [1000, 2000]. Found 2 invalid entries."].
Proof.
  refine (proj1 (messages_follow_the_rules Samples.river_frame "river_data"
                   MoreSamples.river_rules [] _)).
  repeat constructor; intros H; try discriminate H; repeat constructor.
Defined.

Lemma nulls_are_not_violations_witness :
  check_constraints MoreSamples.river_nulls "river_data" = Ok [].
Proof.
  apply (nulls_are_not_violations MoreSamples.river_nulls "river_data"
           "water_level" 1000 2000).
  - left. reflexivity.
  - intros r [<- | [<- | []]]; reflexivity.
Defined.

Lemma text_in_rule_column_raises_witness :
  exists msg,
    check_constraints Samples.status_as_text "gate_data" = Raise (TypeError msg).
Proof.
  apply (text_in_rule_column_raises Samples.status_as_text "gate_data" "status" 2 3).
  - left. reflexivity.
  - reflexivity.
  - exists [VStr "2025-05-01"; VStr "open"]. split; [now left | intros H; exact H].
Defined.

Lemma row_order_is_irrelevant_witness :
  check_constraints Samples.river_frame "river_data"
  = check_constraints MoreSamples.river_frame_reversed "river_data".
Proof.
  apply (row_order_is_irrelevant Samples.river_frame
           MoreSamples.river_frame_reversed "river_data" "water_level" 1000 2000).
  - left. reflexivity.
  - reflexivity.
  - change (rows MoreSamples.river_frame_reversed)
      with (rev (rows Samples.river_frame)).
    apply Permutation_rev.
  - repeat constructor.
Defined.

Lemma values_are_bound_not_interpolated_witness :
  fst (build_query "aws_data" (Some "2025-05-01") (Some "2025-05-31")
         (Some "data_date") (Some "project_name") (Some "Tapi"))
  = fst (build_query "aws_data" (Some "2024-01-01") (Some "2024-12-31")
           (Some "data_date") (Some "project_name")
           (Some "x' OR 1=1 --")).
Proof.
  apply (values_are_bound_not_interpolated "aws_data" (Some "data_date")
           (Some "project_name") "2025-05-01" "2025-05-31" "Tapi"
           "2024-01-01" "2024-12-31" "x' OR 1=1 --"); discriminate.
Defined.

Lemma bound_parameters_have_placeholders_witness :
  occurs_in ":filter_value"
    (fst (build_query "aws_data" None None (Some "data_date")
            (Some "project_name") (Some "Tapi"))).
Proof.
  apply (proj1 (bound_parameters_have_placeholders "aws_data" None None
                  (Some "data_date") (Some "project_name") (Some "Tapi"))
           "filter_value" "Tapi").
  now left.
Defined.

Lemma station_entry_from_own_table_witness :
  dict_find (fst (load_all_data MoreSamples.aws_only MoreSamples.keep)) "River"
  = Some empty_frame
  /\ dict_find (fst (load_all_data MoreSamples.aws_only MoreSamples.reject)) "AWS"
     = Some empty_frame.
Proof.
  split.
  - apply (proj1 (station_entry_from_own_table MoreSamples.aws_only
                    MoreSamples.keep "River" "river_data"
                    ltac:(cbn; tauto))
             (DatabaseError "no such table")).
    reflexivity.
  - apply (proj2 (proj2 (proj2 (station_entry_from_own_table MoreSamples.aws_only
                                  MoreSamples.reject "AWS" "aws_data"
                                  ltac:(cbn; tauto))))
             MoreSamples.aws_frame
             (ValueError "unknown datetime string format"));
      reflexivity.
Defined.

Lemma store_failure_is_shown_as_no_data_witness :
  fst (load_all_data unavailable MoreSamples.keep)
  = map (fun source => (fst source, empty_frame)) data_sources
  /\ active_stations (fst (load_all_data unavailable MoreSamples.keep)) = 6%nat
  /\ total_records (fst (load_all_data unavailable MoreSamples.keep)) = 0%nat
  /\ forall msg,
       ~ In (StError msg) (snd (load_all_data unavailable MoreSamples.keep)).
Proof.
  apply (proj2 (store_failure_is_shown_as_no_data unavailable MoreSamples.keep)).
  intros query bound. eexists. reflexivity.
Defined.

Lemma loading_changes_only_timestamps_witness :
  exists df',
    dict_find (fst (load_all_data MoreSamples.aws_only MoreSamples.keep)) "AWS"
    = Some df'
    /\ columns df' = columns MoreSamples.aws_frame
    /\ df_len df' = df_len MoreSamples.aws_frame
    /\ same_cells (fun c => c <> "timestamp") MoreSamples.aws_frame df'.
Proof.
  apply (loading_changes_only_timestamps MoreSamples.aws_only MoreSamples.keep
           "AWS" "aws_data" MoreSamples.aws_frame).
  - cbn. tauto.
  - reflexivity.
  - right. eexists. reflexivity.
Defined.

Lemma project_choice_leaks_between_stations_witness :
  daily_frame MoreSamples.text_of MoreSamples.gate_frame "2025-05-01" None "Tapi"
  = inl (NameError "selected_project")
  /\ daily_frame MoreSamples.text_of MoreSamples.gate_frame "2025-05-01"
       (Some "Tapi") "Tapi"
     = inl (Uncaught (KeyError "project_name")).
Proof.
  destruct (project_choice_leaks_between_stations MoreSamples.text_of
              MoreSamples.gate_frame "2025-05-01" "Tapi" eq_refl eq_refl eq_refl)
    as (Hname & Hkey & _).
  split; [exact Hname | apply Hkey; discriminate].
Defined.

Lemma alerts_belong_to_the_day_witness :
  exists r,
    In r (rows MoreSamples.aws_frame)
    /\ as_series MoreSamples.aws_frame
         [VStr "2025-05-01"; VStr "Tapi"; VNum (of_int 60);
          VStr "2025-05-01 08:00:00"]
       = as_series MoreSamples.aws_frame r
    /\ MoreSamples.text_of (cell MoreSamples.aws_frame "data_date" r) = "2025-05-01"
    /\ Spec.row_alert Samples.digits_only "AWS" (columns MoreSamples.aws_frame)
         (as_series MoreSamples.aws_frame
            [VStr "2025-05-01"; VStr "Tapi"; VNum (of_int 60);
             VStr "2025-05-01 08:00:00"]) = true
    /\ (has_column MoreSamples.aws_frame "project_name" = true ->
        "Tapi" <> "All Projects" ->
        cell MoreSamples.aws_frame "project_name" r = VStr "Tapi").
Proof.
  eapply (alerts_belong_to_the_day Samples.digits_only MoreSamples.text_of
            "AWS" MoreSamples.aws_frame _ "2025-05-01" "Tapi" None).
  - reflexivity.
  - reflexivity.
  - left. reflexivity.
Defined.

Lemma parameter_choice_only_reorders_witness :
  exists shown others,
    order_for_parameter MoreSamples.aws_frame "rainfall" = Ok (shown, [])
    /\ columns shown = "data_date" :: "rainfall" :: others
    /\ Permutation (columns MoreSamples.aws_frame) (columns shown)
    /\ df_len shown = df_len MoreSamples.aws_frame
    /\ same_cells (fun c => In c (columns MoreSamples.aws_frame))
         MoreSamples.aws_frame shown.
Proof.
  apply (parameter_choice_only_reorders MoreSamples.aws_frame "rainfall").
  - repeat constructor; cbn; intuition discriminate.
  - reflexivity.
  - reflexivity.
  - discriminate.
  - discriminate.
Defined.

Lemma historical_failures_witness :
  statements (snd (load_historical unavailable MoreSamples.keep "river_data"
                     "water_level" "2025-05-01" "2025-05-07"))
  = [("SELECT * FROM river_data WHERE data_date BETWEEN :start_date AND :end_date ORDER BY data_date",
      [("start_date", "2025-05-01"); ("end_date", "2025-05-07")])].
Proof.
  apply (proj1 (historical_failures unavailable MoreSamples.keep "river_data"
                  "water_level" "2025-05-01" "2025-05-07"
                  ltac:(discriminate) ltac:(discriminate))).
Defined.

Lemma blank_search_sends_nothing_witness :
  advanced_search MoreSamples.always_aws MoreSamples.text_of "Location ID"
    "   " "2025-05-01" "2025-05-31"
  = ([], 0%nat, [StWarning "Please enter/select a search value"]).
Proof.
  apply (proj1 (blank_search_sends_nothing MoreSamples.always_aws
                  MoreSamples.text_of "Location ID" "   " "2025-05-01"
                  "2025-05-31" eq_refl)).
Defined.

Lemma search_value_is_bound_witness :
  statements
    (snd (advanced_search MoreSamples.always_aws MoreSamples.text_of
            "Project Name" " Tapi " "2025-05-01" "2025-05-31"))
  = map (fun station =>
           search_read "project_name" "Tapi" "2025-05-01" "2025-05-31"
             (snd station))
        data_sources.
Proof.
  apply (proj2 (search_value_is_bound MoreSamples.always_aws MoreSamples.text_of
                  "Project Name" " Tapi " "2025-05-01" "2025-05-31"
                  ltac:(cbn; tauto) eq_refl eq_refl
                  ltac:(discriminate) ltac:(discriminate))).
Defined.

(* ===================================================================== *)
(** * The rain-gauge chart                                                *)
(* ===================================================================== *)

Lemma drop_no_blank (n : nat) (s : string) :
  no_blank s = true -> no_blank (drop n s) = true.
Proof.
  revert s. induction n as [|n IH]; intros s H; [now destruct s|].
  destruct s as [|c s]; [reflexivity|]. cbn in *.
  apply andb_true_iff in H as [_ H]. now apply IH.
Qed.

Lemma no_match_without_blank (s : string) :
  no_blank s = true -> match_days s = None.
Proof.
  intros H. unfold match_days.
  destruct (0 <? count_digits s)%nat; [|reflexivity]. cbn [andb].
  pose proof (drop_no_blank (count_digits s) s H) as Hd.
  destruct (drop (count_digits s) s) as [|c rest]; [reflexivity|].
  cbn in Hd. apply andb_true_iff in Hd as [Hc _].
  apply negb_true_iff in Hc. cbn [String.prefix].
  destruct (ascii_dec " " c) as [<- | _]; [discriminate Hc | reflexivity].
Qed.

Lemma sub_days_without_blank (s : string) :
  no_blank s = true -> sub_days 0 s = s.
Proof.
  induction s as [|c s IH]; [reflexivity|]. intros H.
  cbn [sub_days]. rewrite (no_match_without_blank _ H).
  cbn in H. apply andb_true_iff in H as [_ H]. now rewrite IH.
Qed.

Lemma sub_days_skip (a b : string) :
  sub_days (String.length a) (a ++ b) = sub_days 0 b.
Proof. induction a as [|c a IH]; [reflexivity | exact IH]. Qed.

Lemma count_digits_prefix (ds rest : string) :
  all_digits ds = true ->
  count_digits (ds ++ String " " rest) = String.length ds
  /\ drop (String.length ds) (ds ++ String " " rest) = String " " rest.
Proof.
  induction ds as [|c ds IH]; intros H; [split; reflexivity|].
  cbn [all_digits] in H. apply andb_true_iff in H as [Hc H].
  cbn [append count_digits String.length drop]. rewrite Hc.
  destruct (IH H) as [-> ->]. split; reflexivity.
Qed.

Lemma string_length_app (a b : string) :
  String.length (a ++ b) = (String.length a + String.length b)%nat.
Proof. induction a as [|c a IH]; cbn; [reflexivity | now rewrite IH]. Qed.

Lemma prefix_app (p rest : string) : String.prefix p (p ++ rest) = true.
Proof.
  induction p as [|c p IH]; cbn; [now destruct rest|].
  destruct (ascii_dec c c); [exact IH | contradiction].
Qed.

(** X23.  The day count that a time of day carries in the frame is cut
    off and the time kept: a text made of digits, [ days ] and a time
    without blanks is cleaned to that time; a text without blanks is left
    as it is. *)
Theorem day_prefix_is_removed :
  (forall days time,
      days <> "" ->
      all_digits days = true ->
      no_blank time = true ->
      clean_time (days ++ " days " ++ time) = time)
  /\ (forall text, no_blank text = true -> clean_time text = text).
Proof.
  split; [|exact sub_days_without_blank].
  intros days time Hne Hdigits Htime. unfold clean_time.
  destruct days as [|c ds]; [congruence|].
  cbn [all_digits] in Hdigits. apply andb_true_iff in Hdigits as [Hc Hds].
  change (" days " ++ time)%string with (String " " ("days " ++ time)).
  remember ("days " ++ time)%string as tail eqn:Htail.
  destruct (count_digits_prefix ds tail Hds) as [Hcount Hdrop].
  cbn [append sub_days]. unfold match_days.
  cbn [count_digits]. rewrite Hc, Hcount.
  cbn [drop Nat.ltb Nat.leb andb]. rewrite Hdrop. subst tail.
  change (String " " ("days " ++ time)) with (" days " ++ time)%string.
  rewrite prefix_app.
  replace (S (String.length ds) + 6 - 1)%nat
    with (String.length (ds ++ " days "))%nat
    by (rewrite string_length_app; cbn; lia).
  rewrite <- string_app_assoc, sub_days_skip.
  now apply sub_days_without_blank.
Qed.

Lemma day_prefix_is_removed_witness :
  clean_time "0 days 14:30:00" = "14:30:00".
Proof.
  apply (proj1 day_prefix_is_removed "0" "14:30:00"); [discriminate | reflexivity..].
Defined.
